(** * MokTrading tobacco tax engine: rule table, excise, sales tax, cart totals

    Shallow embedding of
      - [src/models/tax_models.py]   (class [StateTobaccoTax])
      - [src/utils/tax_calculator.py] (class [TaxCalculator])
      - the [/tax/state/<code>] and [/tax/calculate] routes of
        [src/routes/tax_api.py], as far as they touch the state code;
        further on, [/tax/states] and [/tax/admin/compliance], up to
        the printing of numbers;
      - the pricing steps of the cart and checkout routes of
        [src/routes/customer.py] and [CartItem.total_price].

    Python values are modelled as follows.
      - [decimal.Decimal]: a coefficient and a base-10 exponent, both in [Z]
        (module [Decimal]).  Arithmetic is the exact one of the decimal
        module; the context precision of 28 significant digits is not
        modelled, so the development speaks about the range in which
        Python does not round.  NaN and the infinities are not modelled.
      - [int]: [Z];  [str]: [string] (ASCII);  [None]: [option].
      - the per-state record of the rule table: a record ([StateInfo]); the
        cigar and vape rule dictionaries, whose keys differ from state to
        state and are probed with [in]: [gmap string value].
      - raised exceptions ([KeyError], [TypeError]): the error monad [res]. *)

From Stdlib Require Import ZArith QArith Qpower Qminmax Lia Ascii String List.
From stdpp Require Import gmap strings list.
Import ListNotations.

Local Open Scope string_scope.
Local Open Scope Z_scope.

(* ===================================================================== *)
(** ** Exact decimals *)
(* ===================================================================== *)

Module Decimal.

(** [Decimal] with coefficient [coef] and exponent [exp] denotes
    [coef * 10^exp]; [Decimal('0.675')] is [mk 675 (-3)]. *)
Record t : Type := mk { coef : Z; exp : Z }.

(** [Decimal(str(n))] for a Python [int] [n]. *)
Definition of_int (n : Z) : t := mk n 0.

Definition zero : t := mk 0 0.

(** Coefficient of [a] once rescaled to the exponent [e <= exp a]. *)
Definition align (a : t) (e : Z) : Z := coef a * 10 ^ (exp a - e).

(** [a + b]: the exponent of the sum is the smaller of the two. *)
Definition add (a b : t) : t :=
  let e := Z.min (exp a) (exp b) in mk (align a e + align b e) e.

(** [a * b]: coefficients multiply, exponents add. *)
Definition mul (a b : t) : t := mk (coef a * coef b) (exp a + exp b).

(** [a < b] and [a == b] compare the denoted numbers. *)
Definition ltb (a b : t) : bool :=
  let e := Z.min (exp a) (exp b) in align a e <? align b e.

Definition eqb (a b : t) : bool :=
  let e := Z.min (exp a) (exp b) in align a e =? align b e.

(** [bool(a)]: a Decimal is falsy exactly when it is zero. *)
Definition truthy (a : t) : bool := negb (coef a =? 0).

(** The builtin [min(a, b)]: the first argument unless the second is
    strictly smaller. *)
Definition min (a b : t) : t := if ltb b a then b else a.

(** The number denoted by a decimal. *)
Definition value (a : t) : Q := (inject_Z (coef a) * (10 # 1) ^ exp a)%Q.

(** Numerical equality, the meaning of Python's [==] on decimals. *)
Definition eqv (a b : t) : Prop := (value a == value b)%Q.

(** Parsing of the literals [digits] and [digits.digits] (the strings
    the volume regex captures, and the rule table's literals). *)
Definition digit_of (c : ascii) : option Z :=
  let n := Z.of_nat (nat_of_ascii c) in
  if (48 <=? n) && (n <=? 57) then Some (n - 48) else None.

(** Reads the longest run of digits at the head of [s] into [acc];
    returns the number read and the rest of the string. *)
Fixpoint digits (s : string) (acc : Z) : Z * string :=
  match s with
  | EmptyString => (acc, EmptyString)
  | String c s' =>
      match digit_of c with
      | Some d => digits s' (10 * acc + d)
      | None => (acc, s)
      end
  end.

Definition of_string (s : string) : option t :=
  match s with
  | EmptyString => None
  | String c _ =>
      match digit_of c with
      | None => None
      | Some _ =>
          match digits s 0 with
          | (n, EmptyString) => Some (mk n 0)
          | (n, String "." frac) =>
              match frac with
              | EmptyString => None
              | String c' _ =>
                  match digit_of c', digits frac n with
                  | Some _, (m, EmptyString) =>
                      Some (mk m (- Z.of_nat (String.length frac)))
                  | _, _ => None
                  end
              end
          | _ => None
          end
      end
  end.

(** [Decimal('...')] for a literal of the source. *)
Definition lit (s : string) : t :=
  match of_string s with Some d => d | None => zero end.

End Decimal.

Abbreviation Dec := Decimal.t.
Infix "+d" := Decimal.add (at level 50, left associativity).
Infix "*d" := Decimal.mul (at level 40, left associativity).
Infix "==d" := Decimal.eqv (at level 70, no associativity).

(* ===================================================================== *)
(** ** Python strings *)
(* ===================================================================== *)

Module Str.

Definition code (c : ascii) : Z := Z.of_nat (nat_of_ascii c).

Definition upper_char (c : ascii) : ascii :=
  if (97 <=? code c) && (code c <=? 122)
  then ascii_of_nat (nat_of_ascii c - 32) else c.

Definition lower_char (c : ascii) : ascii :=
  if (65 <=? code c) && (code c <=? 90)
  then ascii_of_nat (nat_of_ascii c + 32) else c.

Fixpoint map (f : ascii -> ascii) (s : string) : string :=
  match s with
  | EmptyString => EmptyString
  | String c s' => String (f c) (map f s')
  end.

(** [s.upper()] and [s.lower()]. *)
Definition upper : string -> string := map upper_char.
Definition lower : string -> string := map lower_char.

(** [sub in s]: substring test. *)
Fixpoint contains (sub s : string) : bool :=
  String.prefix sub s ||
  match s with
  | EmptyString => false
  | String _ s' => contains sub s'
  end.

(** [any(term in s for term in terms)]. *)
Definition any_in (terms : list string) (s : string) : bool :=
  existsb (fun term => contains term s) terms.

(** The characters the pattern class [\s] accepts, within ASCII. *)
Definition is_space (c : ascii) : bool :=
  ((9 <=? code c) && (code c <=? 13)) ||
  ((28 <=? code c) && (code c <=? 32)).

Definition is_digit (c : ascii) : bool :=
  (48 <=? code c) && (code c <=? 57).

(** Longest prefix of [s] whose characters satisfy [p], and the rest. *)
Fixpoint span (p : ascii -> bool) (s : string) : string * string :=
  match s with
  | EmptyString => (EmptyString, EmptyString)
  | String c s' =>
      if p c then let '(a, b) := span p s' in (String c a, b)
      else (EmptyString, s)
  end.

End Str.

(* ===================================================================== *)
(** ** Exceptions *)
(* ===================================================================== *)

Inductive exn : Type :=
| KeyError (key : string)
| TypeError.

(** Outcome of a call: a returned value or a raised exception. *)
Inductive res (A : Type) : Type :=
| Ok (a : A)
| Raise (e : exn).

Arguments Ok {A} a.
Arguments Raise {A} e.

Definition bind {A B : Type} (m : res A) (k : A -> res B) : res B :=
  match m with
  | Ok a => k a
  | Raise e => Raise e
  end.

Notation "'let*' x := m 'in' k" := (bind m (fun x => k))
  (at level 10, x name, m at level 100, k at level 200).

(* ===================================================================== *)
(** ** The rule table ([StateTobaccoTax.tax_data]) *)
(* ===================================================================== *)

(** Values stored in a cigar or vape rule dictionary. *)
Inductive value : Type :=
| VStr (s : string)
| VDec (d : Dec).

(** The dictionary of one state. Its five keys are present in every
    entry of the table, so it is a record; [vape_tax] may be [None]. *)
Record StateInfo : Type := {
  cigarette_tax : Dec;
  cigar_tax : gmap string value;
  vape_tax : option (gmap string value);
  sales_tax_applies : bool;
  sales_tax_rate : Dec
}.

(** [d[k]] on a rule dictionary. *)
Definition getitem (d : gmap string value) (k : string) : res value :=
  match d !! k with
  | Some v => Ok v
  | None => Raise (KeyError k)
  end.

(** [k in d]. *)
Definition has_key (d : gmap string value) (k : string) : bool :=
  match d !! k with Some _ => true | None => false end.

(** [v == 'literal']: a Decimal is never equal to a string. *)
Definition is_str (v : value) (s : string) : bool :=
  match v with
  | VStr s' => String.eqb s' s
  | VDec _ => false
  end.

(** A dictionary value used as an operand of Decimal arithmetic or
    comparison: a string there raises [TypeError]. *)
Definition as_dec (v : value) : res Dec :=
  match v with
  | VDec d => Ok d
  | VStr _ => Raise TypeError
  end.

(** [d[k]] used as a Decimal operand. *)
Definition getdec (d : gmap string value) (k : string) : res Dec :=
  let* v := getitem d k in as_dec v.

(** [if x: ... else ...] for an argument that is a Decimal or [None]. *)
Definition if_truthy {A : Type} (x : option Dec) (yes : Dec -> A) (no : A) : A :=
  match x with
  | Some d => if Decimal.truthy d then yes d else no
  | None => no
  end.

Definition dict (l : list (string * value)) : gmap string value := list_to_map l.
Definition D (s : string) : value := VDec (Decimal.lit s).

Definition entry (cigarette : string) (cigar : gmap string value)
    (vape : option (gmap string value)) (applies : bool) (rate : string)
  : StateInfo :=
  {| cigarette_tax := Decimal.lit cigarette;
     cigar_tax := cigar;
     vape_tax := vape;
     sales_tax_applies := applies;
     sales_tax_rate := Decimal.lit rate |}.

(** [_load_tax_data]: the 50 states and DC. *)
Definition tax_data : gmap string StateInfo :=
  list_to_map [
    ("AL", (* Alabama *)
      entry "0.675" (dict [("type", VStr "per_unit"); ("rate", D "0.0405")])
        None true "0.04");
    ("AK", (* Alaska *)
      entry "2.000" (dict [("type", VStr "percentage"); ("rate", D "0.75")])
        None false "0.00");
    ("AZ", (* Arizona *)
      entry "2.000" (dict [("type", VStr "per_unit"); ("rate", D "0.218")])
        None true "0.056");
    ("AR", (* Arkansas *)
      entry "1.150" (dict [("type", VStr "percentage"); ("rate", D "0.68"); ("cap", D "0.50")])
        None true "0.065");
    ("CA", (* California *)
      entry "2.870" (dict [("type", VStr "percentage"); ("rate", D "0.5427")])
        (Some (dict [("type", VStr "dual"); ("wholesale", D "0.5632"); ("retail", D "0.125")])) true "0.0725");
    ("CO", (* Colorado *)
      entry "1.940" (dict [("type", VStr "percentage"); ("rate", D "0.56")])
        (Some (dict [("type", VStr "percentage"); ("rate", D "0.50")])) true "0.029");
    ("CT", (* Connecticut *)
      entry "4.350" (dict [("type", VStr "percentage"); ("rate", D "0.50"); ("cap", D "0.50")])
        (Some (dict [("type", VStr "bifurcated"); ("open", D "0.10"); ("closed", D "0.40")])) true "0.0635");
    ("DE", (* Delaware *)
      entry "2.100" (dict [("type", VStr "percentage"); ("rate", D "0.30")])
        (Some (dict [("type", VStr "per_ml"); ("rate", D "0.05")])) false "0.00");
    ("DC", (* District of Columbia *)
      entry "4.500" (dict [("type", VStr "none")])
        (Some (dict [("type", VStr "percentage"); ("rate", D "0.79")])) true "0.06");
    ("FL", (* Florida *)
      entry "1.339" (dict [("type", VStr "none")])
        None true "0.06");
    ("GA", (* Georgia *)
      entry "0.370" (dict [("type", VStr "percentage"); ("rate", D "0.23")])
        (Some (dict [("type", VStr "bifurcated"); ("open", D "0.07"); ("closed", D "0.05")])) true "0.04");
    ("HI", (* Hawaii *)
      entry "3.200" (dict [("type", VStr "percentage"); ("rate", D "0.50")])
        (Some (dict [("type", VStr "percentage"); ("rate", D "0.70")])) true "0.04");
    ("ID", (* Idaho *)
      entry "0.570" (dict [("type", VStr "percentage"); ("rate", D "0.40"); ("cap", D "0.50")])
        None true "0.06");
    ("IL", (* Illinois *)
      entry "2.980" (dict [("type", VStr "percentage"); ("rate", D "0.45")])
        (Some (dict [("type", VStr "percentage"); ("rate", D "0.15")])) true "0.0625");
    ("IN", (* Indiana *)
      entry "0.995" (dict [("type", VStr "percentage"); ("rate", D "0.30"); ("cap", D "3.00")])
        (Some (dict [("type", VStr "bifurcated"); ("open", D "0.15"); ("closed", D "0.15")])) true "0.07");
    ("IA", (* Iowa *)
      entry "1.360" (dict [("type", VStr "percentage"); ("rate", D "0.50"); ("cap", D "0.50")])
        None true "0.06");
    ("KS", (* Kansas *)
      entry "1.290" (dict [("type", VStr "percentage"); ("rate", D "0.10")])
        (Some (dict [("type", VStr "per_ml"); ("rate", D "0.05")])) true "0.065");
    ("KY", (* Kentucky *)
      entry "1.100" (dict [("type", VStr "percentage"); ("rate", D "0.15")])
        (Some (dict [("type", VStr "bifurcated"); ("open", D "0.15"); ("closed", D "1.50")])) true "0.06");
    ("LA", (* Louisiana *)
      entry "1.080" (dict [("type", VStr "percentage"); ("rate", D "0.20")])
        (Some (dict [("type", VStr "per_ml"); ("rate", D "0.15")])) true "0.0445");
    ("ME", (* Maine *)
      entry "2.000" (dict [("type", VStr "percentage"); ("rate", D "0.43")])
        (Some (dict [("type", VStr "percentage"); ("rate", D "0.43")])) true "0.055");
    ("MD", (* Maryland *)
      entry "3.750" (dict [("type", VStr "percentage"); ("rate", D "0.15")])
        (Some (dict [("type", VStr "bifurcated"); ("open", D "0.12"); ("closed", D "0.60")])) true "0.06");
    ("MA", (* Massachusetts *)
      entry "3.510" (dict [("type", VStr "percentage"); ("rate", D "0.40")])
        (Some (dict [("type", VStr "percentage"); ("rate", D "0.75")])) true "0.0625");
    ("MI", (* Michigan *)
      entry "2.000" (dict [("type", VStr "percentage"); ("rate", D "0.32"); ("cap", D "0.50")])
        None true "0.06");
    ("MN", (* Minnesota *)
      entry "3.040" (dict [("type", VStr "percentage"); ("rate", D "0.95"); ("cap", D "0.50")])
        (Some (dict [("type", VStr "percentage"); ("rate", D "0.95")])) true "0.06875");
    ("MS", (* Mississippi *)
      entry "0.680" (dict [("type", VStr "percentage"); ("rate", D "0.15")])
        None true "0.07");
    ("MO", (* Missouri *)
      entry "0.170" (dict [("type", VStr "percentage"); ("rate", D "0.10")])
        None true "0.04225");
    ("MT", (* Montana *)
      entry "1.700" (dict [("type", VStr "percentage"); ("rate", D "0.50"); ("cap", D "0.35")])
        None false "0.00");
    ("NE", (* Nebraska *)
      entry "0.640" (dict [("type", VStr "percentage"); ("rate", D "0.20")])
        (Some (dict [("type", VStr "bifurcated"); ("small", D "0.05"); ("large", D "0.10")])) true "0.055");
    ("NV", (* Nevada *)
      entry "1.800" (dict [("type", VStr "percentage"); ("rate", D "0.30")])
        (Some (dict [("type", VStr "percentage"); ("rate", D "0.30")])) true "0.0685");
    ("NH", (* New Hampshire *)
      entry "1.780" (dict [("type", VStr "none")])
        (Some (dict [("type", VStr "bifurcated"); ("open", D "0.08"); ("closed", D "0.30")])) false "0.00");
    ("NJ", (* New Jersey *)
      entry "2.700" (dict [("type", VStr "percentage"); ("rate", D "0.30")])
        (Some (dict [("type", VStr "bifurcated"); ("open", D "0.10"); ("closed", D "0.10")])) true "0.06625");
    ("NM", (* New Mexico *)
      entry "2.000" (dict [("type", VStr "percentage"); ("rate", D "0.25"); ("cap", D "0.50")])
        (Some (dict [("type", VStr "bifurcated"); ("open", D "0.125"); ("closed", D "0.50")])) true "0.05125");
    ("NY", (* New York *)
      entry "5.350" (dict [("type", VStr "percentage"); ("rate", D "0.75")])
        (Some (dict [("type", VStr "retail"); ("rate", D "0.20")])) true "0.08");
    ("NC", (* North Carolina *)
      entry "0.450" (dict [("type", VStr "percentage"); ("rate", D "0.1285")])
        (Some (dict [("type", VStr "per_ml"); ("rate", D "0.05")])) true "0.0475");
    ("ND", (* North Dakota *)
      entry "0.440" (dict [("type", VStr "percentage"); ("rate", D "0.28")])
        None true "0.05");
    ("OH", (* Ohio *)
      entry "1.600" (dict [("type", VStr "percentage"); ("rate", D "0.17"); ("cap", D "0.65")])
        (Some (dict [("type", VStr "per_ml"); ("rate", D "0.10")])) true "0.0575");
    ("OK", (* Oklahoma *)
      entry "2.030" (dict [("type", VStr "per_unit"); ("rate", D "0.12")])
        None true "0.045");
    ("OR", (* Oregon *)
      entry "3.330" (dict [("type", VStr "percentage"); ("rate", D "0.65"); ("cap", D "1.00")])
        (Some (dict [("type", VStr "percentage"); ("rate", D "0.65")])) false "0.00");
    ("PA", (* Pennsylvania *)
      entry "2.600" (dict [("type", VStr "none")])
        (Some (dict [("type", VStr "percentage"); ("rate", D "0.40")])) true "0.06");
    ("RI", (* Rhode Island *)
      entry "4.250" (dict [("type", VStr "percentage"); ("rate", D "0.80"); ("cap", D "0.50")])
        None true "0.07");
    ("SC", (* South Carolina *)
      entry "0.570" (dict [("type", VStr "percentage"); ("rate", D "0.055")])
        None true "0.06");
    ("SD", (* South Dakota *)
      entry "1.530" (dict [("type", VStr "percentage"); ("rate", D "0.35")])
        None true "0.045");
    ("TN", (* Tennessee *)
      entry "0.620" (dict [("type", VStr "percentage"); ("rate", D "0.066")])
        None true "0.07");
    ("TX", (* Texas *)
      entry "1.410" (dict [("type", VStr "per_unit"); ("rate", D "0.011")])
        None true "0.0625");
    ("UT", (* Utah *)
      entry "1.700" (dict [("type", VStr "percentage"); ("rate", D "0.86")])
        (Some (dict [("type", VStr "percentage"); ("rate", D "0.56")])) true "0.0485");
    ("VT", (* Vermont *)
      entry "3.080" (dict [("type", VStr "percentage"); ("rate", D "0.92"); ("cap_low", D "2.00"); ("cap_high", D "4.00")])
        (Some (dict [("type", VStr "percentage"); ("rate", D "0.92")])) true "0.06");
    ("VA", (* Virginia *)
      entry "0.600" (dict [("type", VStr "percentage"); ("rate", D "0.20")])
        (Some (dict [("type", VStr "per_ml"); ("rate", D "0.066")])) true "0.053");
    ("WA", (* Washington *)
      entry "3.025" (dict [("type", VStr "percentage"); ("rate", D "0.95"); ("cap", D "0.65")])
        (Some (dict [("type", VStr "bifurcated"); ("open", D "0.09"); ("closed", D "0.27")])) true "0.065");
    ("WV", (* West Virginia *)
      entry "1.200" (dict [("type", VStr "percentage"); ("rate", D "0.12")])
        (Some (dict [("type", VStr "per_ml"); ("rate", D "0.075")])) true "0.06");
    ("WI", (* Wisconsin *)
      entry "2.520" (dict [("type", VStr "percentage"); ("rate", D "0.71"); ("cap", D "0.50")])
        (Some (dict [("type", VStr "per_ml"); ("rate", D "0.05")])) true "0.05");
    ("WY", (* Wyoming *)
      entry "0.600" (dict [("type", VStr "percentage"); ("rate", D "0.20")])
        (Some (dict [("type", VStr "percentage"); ("rate", D "0.15")])) true "0.04")
  ].

(* ===================================================================== *)
(** ** [StateTobaccoTax]: the excise and sales tax calculators *)
(* ===================================================================== *)

(** [Decimal('0')], the value every calculator falls back to. *)
Definition zero : Dec := Decimal.lit "0".

Section StateTobaccoTax.

(** [self.tax_data]. *)
Variable self : gmap string StateInfo.

Definition calculate_cigarette_tax (state : string) (quantity : Z) : res Dec :=
  match self !! state with
  | None => Ok zero
  | Some info =>
      let tax_per_pack := cigarette_tax info in
      Ok (tax_per_pack *d Decimal.of_int quantity)
  end.

Definition calculate_cigar_tax (state : string) (wholesale_price : Dec)
    (quantity : Z) : res Dec :=
  match self !! state with
  | None => Ok zero
  | Some info =>
      let cigar_tax_info := cigar_tax info in
      let* ty := getitem cigar_tax_info "type" in
      if is_str ty "none" then Ok zero
      else if is_str ty "percentage" then
        let* rate := getdec cigar_tax_info "rate" in
        let tax_per_unit := wholesale_price *d rate in
        let* tax_per_unit :=
          if has_key cigar_tax_info "cap" then
            let* cap := getdec cigar_tax_info "cap" in
            Ok (Decimal.min tax_per_unit cap)
          else if has_key cigar_tax_info "cap_low"
                  && has_key cigar_tax_info "cap_high" then
            if Decimal.ltb wholesale_price (Decimal.lit "10") then
              let* cap_low := getdec cigar_tax_info "cap_low" in
              Ok (Decimal.min tax_per_unit cap_low)
            else
              let* cap_high := getdec cigar_tax_info "cap_high" in
              Ok (Decimal.min tax_per_unit cap_high)
          else Ok tax_per_unit in
        Ok (tax_per_unit *d Decimal.of_int quantity)
      else if is_str ty "per_unit" then
        let* rate := getdec cigar_tax_info "rate" in
        Ok (rate *d Decimal.of_int quantity)
      else Ok zero
  end.

(** The body of [calculate_vape_tax] once the rule dictionary is at
    hand; every path that leaves the [if]/[elif] chain without a
    [return] reaches the final [return Decimal('0')]. *)
Definition vape_rule_tax (vape_tax_info : gmap string value)
    (product_type : string) (price volume_ml : option Dec) (quantity : Z)
  : res Dec :=
  let q := Decimal.of_int quantity in
  let* ty := getitem vape_tax_info "type" in
  if is_str ty "percentage" then
    if_truthy price
      (fun price =>
         let* rate := getdec vape_tax_info "rate" in
         Ok (price *d rate *d q))
      (Ok zero)
  else if is_str ty "per_ml" then
    if_truthy volume_ml
      (fun volume_ml =>
         let* rate := getdec vape_tax_info "rate" in
         Ok (volume_ml *d rate *d q))
      (Ok zero)
  else if is_str ty "bifurcated" then
    if String.eqb product_type "open" && has_key vape_tax_info "open" then
      match vape_tax_info !! "open" with
      | Some (VDec open) =>
          if_truthy price
            (fun price => Ok (price *d open *d q))
            (if_truthy volume_ml
               (fun volume_ml => Ok (volume_ml *d open *d q))
               (Ok zero))
      | _ => Ok zero
      end
    else if String.eqb product_type "closed"
            && has_key vape_tax_info "closed" then
      match vape_tax_info !! "closed" with
      | Some (VDec closed) =>
          if Decimal.ltb closed (Decimal.lit "1") then
            if_truthy price
              (fun price => Ok (price *d closed *d q))
              (Ok zero)
          else
            if_truthy volume_ml
              (fun volume_ml => Ok (volume_ml *d closed *d q))
              (Ok (closed *d q))
      | _ => Ok zero
      end
    else Ok zero
  else if is_str ty "dual" then
    let total_tax := zero in
    let* total_tax :=
      if_truthy price
        (fun price =>
           if has_key vape_tax_info "wholesale" then
             let* wholesale := getdec vape_tax_info "wholesale" in
             Ok (total_tax +d price *d wholesale)
           else Ok total_tax)
        (Ok total_tax) in
    let* total_tax :=
      if_truthy price
        (fun price =>
           if has_key vape_tax_info "retail" then
             let* retail := getdec vape_tax_info "retail" in
             Ok (total_tax +d price *d retail)
           else Ok total_tax)
        (Ok total_tax) in
    Ok (total_tax *d q)
  else Ok zero.

Definition calculate_vape_tax (state : string) (product_type : string)
    (price volume_ml : option Dec) (quantity : Z) : res Dec :=
  match self !! state with
  | None => Ok zero
  | Some info =>
      match vape_tax info with
      | None => Ok zero
      | Some vape_tax_info =>
          (* [not vape_tax_info] also holds for an empty dictionary *)
          if decide (vape_tax_info = ∅) then Ok zero
          else vape_rule_tax vape_tax_info product_type price volume_ml quantity
      end
  end.

Definition calculate_sales_tax (state : string) (taxable_amount : Dec)
  : res Dec :=
  match self !! state with
  | None => Ok zero
  | Some info =>
      if negb (sales_tax_applies info) then Ok zero
      else Ok (taxable_amount *d sales_tax_rate info)
  end.

End StateTobaccoTax.

(** The dictionary [calculate_total_tax] returns. *)
Module Taxes.
Record t : Type := mk {
  excise_tax : Dec;
  sales_tax : Dec;
  total_tax : Dec
}.
End Taxes.

(** [x in [a; b; ...]] for strings. *)
Definition str_in_list (x : string) (l : list string) : bool :=
  existsb (String.eqb x) l.

Section TotalTax.

Variable self : gmap string StateInfo.

(** The excise step of [calculate_total_tax]: dispatch on the product
    type; a type outside the three lists keeps the initial
    [Decimal('0')]. *)
Definition excise_for (state product_type : string) (base_price : Dec)
    (quantity : Z) (volume_ml : option Dec) : res Dec :=
  if String.eqb product_type "cigarettes" then
    calculate_cigarette_tax self state quantity
  else if str_in_list product_type ["cigars"; "cigar"] then
    calculate_cigar_tax self state base_price quantity
  else if str_in_list product_type
            ["vape"; "e-cigarette"; "vape_open"; "vape_closed"] then
    let vape_type :=
      if Str.contains "open" product_type then "open" else "closed" in
    calculate_vape_tax self state vape_type (Some base_price) volume_ml quantity
  else Ok zero.

Definition calculate_total_tax (state product_type : string)
    (base_price : Dec) (quantity : Z) (volume_ml : option Dec)
  : res Taxes.t :=
  let* excise_tax := excise_for state product_type base_price quantity volume_ml in
  let taxable_amount := base_price +d excise_tax in
  let* sales_tax := calculate_sales_tax self state taxable_amount in
  let total_tax := excise_tax +d sales_tax in
  Ok (Taxes.mk excise_tax sales_tax total_tax).

(** [get_state_info]: [self.tax_data.get(state, {})]; the empty
    dictionary is [None] here. *)
Definition get_state_info (state : string) : option StateInfo :=
  self !! state.

Definition requires_wholesaler_license (state : string) : bool :=
  let no_license_states := ["DE"; "MT"; "NH"; "OR"] in
  negb (str_in_list state no_license_states).

End TotalTax.

(* ===================================================================== *)
(** ** [TaxCalculator]: classification, volume, per-item and cart totals *)
(* ===================================================================== *)

Record Category : Type := { category_name : string }.

(** The columns of [Product] the calculator reads. [price] is a
    [Numeric(10, 2)] column, hence already a Decimal, and
    [Decimal(str(product.price))] is that same Decimal. *)
Record Product : Type := {
  product_id : Z;
  name : string;
  description : option string;
  price : Dec;
  category : option Category
}.

Definition _get_product_type (product : Product) : string :=
  let category_lower :=
    match category product with
    | Some c => Str.lower (category_name c)
    | None => ""
    end in
  let name_lower := Str.lower (name product) in
  if Str.contains "cigarette" category_lower || Str.contains "cigarette" name_lower
  then "cigarettes"
  else if Str.contains "cigar" category_lower || Str.contains "cigar" name_lower
  then "cigars"
  else if existsb
            (fun term => Str.contains term category_lower || Str.contains term name_lower)
            ["vape"; "e-cig"; "electronic"; "vapor"]
  then
    if Str.any_in ["cartridge"; "pod"; "disposable"] name_lower
    then "vape_closed" else "vape_open"
  else "cigars".

(** A match of [(\d+(?:\.\d+)?)\s*unit] anchored at the head of [s]; the
    result is group 1. Every quantifier of the pattern is followed by a
    character it cannot itself consume, so only the longest choices can
    lead to a match. *)
Definition match_volume_at (unit : string) (s : string) : option string :=
  let '(int_part, rest) := Str.span Str.is_digit s in
  match int_part with
  | EmptyString => None
  | _ =>
      let '(number, rest) :=
        match rest with
        | String "." rest' =>
            let '(frac, rest'') := Str.span Str.is_digit rest' in
            match frac with
            | EmptyString => (int_part, rest)
            | _ => (int_part ++ "." ++ frac, rest'')
            end
        | _ => (int_part, rest)
        end in
      let '(_, rest) := Str.span Str.is_space rest in
      if String.prefix unit rest then Some number else None
  end.

(** [re.search] of that pattern: the leftmost position with a match. *)
Fixpoint search_volume (unit : string) (text : string) : option string :=
  match match_volume_at unit text with
  | Some g => Some g
  | None =>
      match text with
      | EmptyString => None
      | String _ text' => search_volume unit text'
      end
  end.

Definition _extract_volume_ml (product : Product) : option Dec :=
  let text :=
    Str.lower (name product ++ " " ++
               match description product with Some d => d | None => "" end) in
  let ml_patterns := ["ml"; "milliliter"; "mL"] in
  let fix try_patterns (patterns : list string) : option Dec :=
    match patterns with
    | [] => None
    | unit :: patterns' =>
        match search_volume unit text with
        | Some g =>
            match Decimal.of_string g with
            | Some d => Some d
            | None => try_patterns patterns'
            end
        | None => try_patterns patterns'
        end
    end in
  match try_patterns ml_patterns with
  | Some d => Some d
  | None =>
      if Str.contains "cartridge" text || Str.contains "pod" text
      then Some (Decimal.lit "1.0")
      else if Str.contains "disposable" text
      then Some (Decimal.lit "2.0")
      else None
  end.

(** The dictionary [calculate_product_tax] returns: the three taxes of
    [calculate_total_tax], updated with the product's own entries. *)
Module Item.
Record t : Type := mk {
  taxes : Taxes.t;
  product_id : Z;
  product_name : string;
  product_type : string;
  base_price : Dec;
  quantity : Z;
  state : string;
  price_with_tax : Dec
}.
Definition excise_tax (i : t) : Dec := Taxes.excise_tax (taxes i).
Definition sales_tax (i : t) : Dec := Taxes.sales_tax (taxes i).
Definition total_tax (i : t) : Dec := Taxes.total_tax (taxes i).
End Item.

(** [cart_tax_summary]. *)
Module Summary.
Record t : Type := mk {
  items : list Item.t;
  subtotal : Dec;
  total_excise_tax : Dec;
  total_sales_tax : Dec;
  total_tax : Dec;
  grand_total : Dec;
  state : string
}.
End Summary.

(** An element of [cart_items]: [{'product': ..., 'quantity': ...}]. *)
Record CartItem : Type := {
  product : Product;
  cart_quantity : Z
}.

Section TaxCalculator.

(** [self.state_tax.tax_data]. *)
Variable self : gmap string StateInfo.

Definition calculate_product_tax (product : Product) (state : string)
    (quantity : Z) : res Item.t :=
  let product_type := _get_product_type product in
  let base_price := price product in
  let volume_ml := _extract_volume_ml product in
  let* tax_breakdown :=
    calculate_total_tax self state product_type base_price quantity volume_ml in
  Ok (Item.mk tax_breakdown (product_id product) (name product) product_type
        base_price quantity state
        (base_price +d Taxes.total_tax tax_breakdown)).

(** The [for item in cart_items] loop, threading the summary. *)
Fixpoint cart_loop (cart_items : list CartItem) (shipping_state : string)
    (cart_tax_summary : Summary.t) : res Summary.t :=
  match cart_items with
  | [] => Ok cart_tax_summary
  | item :: rest =>
      let* item_tax :=
        calculate_product_tax (product item) shipping_state (cart_quantity item) in
      let s := cart_tax_summary in
      cart_loop rest shipping_state
        (Summary.mk
           (Summary.items s ++ [item_tax])
           (Summary.subtotal s +d Item.base_price item_tax)
           (Summary.total_excise_tax s +d Item.excise_tax item_tax)
           (Summary.total_sales_tax s +d Item.sales_tax item_tax)
           (Summary.total_tax s +d Item.total_tax item_tax)
           (Summary.grand_total s)
           (Summary.state s))
  end.

Definition calculate_cart_tax (cart_items : list CartItem)
    (shipping_state : string) : res Summary.t :=
  let cart_tax_summary :=
    Summary.mk [] zero zero zero zero zero shipping_state in
  let* s := cart_loop cart_items shipping_state cart_tax_summary in
  Ok (Summary.mk (Summary.items s) (Summary.subtotal s)
        (Summary.total_excise_tax s) (Summary.total_sales_tax s)
        (Summary.total_tax s)
        (Summary.subtotal s +d Summary.total_tax s)
        (Summary.state s)).

(** [get_tax_rate_summary] up to the presentation of its numbers:
    [None] is the [{'error': ...}] dictionary, and a found state gives
    its code, its rule record and the licence flag. *)
Definition get_tax_rate_summary (state : string)
  : option (string * StateInfo * bool) :=
  match get_state_info self state with
  | None => None
  | Some state_info =>
      Some (state, state_info, requires_wholesaler_license state)
  end.

(** Route [/tax/state/<state_code>]: the code is upper-cased first. *)
Definition get_state_tax_info (state_code : string)
  : option (string * StateInfo * bool) :=
  let state_code := Str.upper state_code in
  get_tax_rate_summary state_code.

(** Route [/tax/calculate], after the products have been fetched: the
    [state] of the request body reaches [calculate_cart_tax] as it is. *)
Definition calculate_tax (state : string) (cart_items : list CartItem)
  : res Summary.t :=
  calculate_cart_tax cart_items state.

End TaxCalculator.

(* ===================================================================== *)
(** ** Callers: the routes of [tax_api.py] and [customer.py] *)
(* ===================================================================== *)

(** [calculate_order_tax]: an order item carries the same two entries
    as a cart item, and the cart built from them is handed on. *)
Definition calculate_order_tax (self : gmap string StateInfo)
    (order_items : list CartItem) (shipping_state : string) : res Summary.t :=
  let cart_items :=
    map (fun order_item =>
           {| product := product order_item;
              cart_quantity := cart_quantity order_item |}) order_items in
  calculate_cart_tax self cart_items shipping_state.

(** The list [states] of [get_all_states_tax_info] and [tax_compliance]. *)
Definition states : list string :=
  ["AL"; "AK"; "AZ"; "AR"; "CA"; "CO"; "CT"; "DE"; "DC"; "FL";
   "GA"; "HI"; "ID"; "IL"; "IN"; "IA"; "KS"; "KY"; "LA"; "ME";
   "MD"; "MA"; "MI"; "MN"; "MS"; "MO"; "MT"; "NE"; "NV"; "NH";
   "NJ"; "NM"; "NY"; "NC"; "ND"; "OH"; "OK"; "OR"; "PA"; "RI";
   "SC"; "SD"; "TN"; "TX"; "UT"; "VT"; "VA"; "WA"; "WV"; "WI"; "WY"].

(** Route [/tax/states]: the dictionary [all_states_info], filled state
    by state; a state that is not found is stored as its error entry
    ([None]). *)
Definition get_all_states_tax_info (self : gmap string StateInfo)
  : gmap string (option (string * StateInfo * bool)) :=
  foldl (fun all_states_info state =>
           <[state := get_tax_rate_summary self state]> all_states_info)
    ∅ states.

(** Route [/tax/admin/compliance]: the summaries of the listed states
    that were found, in the order of the list. *)
Definition tax_compliance (self : gmap string StateInfo)
  : list (string * StateInfo * bool) :=
  omap (get_tax_rate_summary self) states.

(** [state_mapping] of the cart and checkout pages. *)
Definition state_mapping : gmap string string :=
  list_to_map [("delaware", "DE"); ("california", "CA"); ("new york", "NY");
               ("texas", "TX"); ("florida", "FL"); ("illinois", "IL")].

(** The state the cart and checkout pages compute the tax for, from
    [user.state] (a nullable column). *)
Definition tax_state_of_user (state : option string) : string :=
  let user_state :=
    match state with
    | Some s => if String.eqb s "" then "DE" else s
    | None => "DE"
    end in
  if (2 <? String.length user_state)%nat then
    match state_mapping !! Str.lower user_state with
    | Some code => code
    | None => "DE"
    end
  else user_state.





(* ===================================================================== *)
(** ** Vocabulary of the statements *)
(* ===================================================================== *)

(** [d[k]] is a Decimal. *)
Definition dec_at (d : gmap string value) (k : string) : bool :=
  match d !! k with Some (VDec _) => true | _ => false end.

(** [d[k]] is a Decimal whenever [k in d]. *)
Definition dec_if_present (d : gmap string value) (k : string) : bool :=
  match d !! k with Some (VStr _) => false | _ => true end.

(** The keys [calculate_cigar_tax] reads are there, with Decimal values. *)
Definition cigar_rule_ok (d : gmap string value) : bool :=
  match d !! "type" with
  | None => false
  | Some ty =>
      if is_str ty "none" then true
      else if is_str ty "percentage" then
        dec_at d "rate" && dec_if_present d "cap"
        && dec_if_present d "cap_low" && dec_if_present d "cap_high"
      else if is_str ty "per_unit" then dec_at d "rate"
      else true
  end.

(** The same for [calculate_vape_tax]. *)
Definition vape_rule_ok (d : gmap string value) : bool :=
  match d !! "type" with
  | None => bool_decide (d = ∅)
  | Some ty =>
      if is_str ty "percentage" then dec_at d "rate"
      else if is_str ty "per_ml" then dec_at d "rate"
      else if is_str ty "bifurcated" then true
      else if is_str ty "dual" then
        dec_if_present d "wholesale" && dec_if_present d "retail"
      else true
  end.

Definition state_ok (info : StateInfo) : bool :=
  cigar_rule_ok (cigar_tax info) &&
  match vape_tax info with
  | None => true
  | Some d => vape_rule_ok d
  end.

Definition table_ok (self : gmap string StateInfo) : Prop :=
  map_Forall (fun _ info => state_ok info = true) self.

(** The sum of the numbers denoted by one Decimal entry of each item. *)
Definition total_of (f : Item.t -> Dec) (items : list Item.t) : Q :=
  fold_right (fun i acc => (Decimal.value (f i) + acc)%Q) 0%Q items.

(** The step the cart loop takes for one line item. *)
Definition item_of (self : gmap string StateInfo) (state : string)
    (item : CartItem) (i : Item.t) : Prop :=
  calculate_product_tax self (product item) state (cart_quantity item) = Ok i.

(** All three taxes of an item are [Decimal('0')]. *)
Definition untaxed (i : Item.t) : Prop :=
  Item.excise_tax i = zero /\ Item.sales_tax i = zero /\ Item.total_tax i = zero.



(** The argument fails the test [if x:]: it is [None] or zero. *)
Definition falsy (x : option Dec) : Prop :=
  match x with
  | Some d => Decimal.truthy d = false
  | None => True
  end.

(** The excise the sentence of the specification for the open sub-type
    prescribes: a sub-rate below 1 is a percentage of the price, any other
    a per-volume amount. *)
Definition spec_open_excise (open price volume_ml : Dec) (quantity : Z) : Dec :=
  if Decimal.ltb open (Decimal.lit "1")
  then price *d open *d Decimal.of_int quantity
  else volume_ml *d open *d Decimal.of_int quantity.

(** A table with one state whose 'open' and 'closed' values are 1.50. *)
Definition sample_table : gmap string StateInfo :=
  {[ "XX" := entry "1.100"
       (dict [("type", VStr "percentage"); ("rate", D "0.15")])
       (Some (dict [("type", VStr "bifurcated"); ("open", D "1.50");
                    ("closed", D "1.50")]))
       true "0.06" ]}.

(** The four product types [_get_product_type] can return. *)
Definition product_types : list string :=
  ["cigarettes"; "cigars"; "vape_open"; "vape_closed"].

(** The same product with its name, description and category name
    written in upper case. *)
Definition shouted (p : Product) : Product :=
  {| product_id := product_id p;
     name := Str.upper (name p);
     description := option_map Str.upper (description p);
     price := price p;
     category :=
       option_map (fun c => {| category_name := Str.upper (category_name c) |})
         (category p) |}.

(** Every character of [s] passes the test [p]. *)
Fixpoint all_chars (p : ascii -> bool) (s : string) : bool :=
  match s with
  | EmptyString => true
  | String c s' => p c && all_chars p s'
  end.

(** [term] occurs in the lower-cased name or category name of [p]. *)
Definition mentions (term : string) (p : Product) : bool :=
  Str.contains term
    (match category p with
     | Some c => Str.lower (category_name c)
     | None => ""
     end)
  || Str.contains term (Str.lower (name p)).

(** The text [_extract_volume_ml] searches: name and description, in
    lower case. *)
Definition volume_text (p : Product) : string :=
  Str.lower (name p ++ " " ++
             match description p with Some d => d | None => "" end).

(** The character is not the capital letter L. *)
Definition not_capital_L (c : ascii) : bool := negb (Ascii.eqb c "L").

(** The volume one pattern finds in a text, if it finds one and the
    number parses. *)
Definition pattern_volume (unit text : string) : option Dec :=
  match search_volume unit text with
  | Some g => Decimal.of_string g
  | None => None
  end.


(** The Decimal is not negative. *)
Definition nn (d : Dec) : Prop := 0 <= Decimal.coef d.

Definition opt_nn (x : option Dec) : Prop :=
  match x with
  | Some d => nn d
  | None => True
  end.

(** No Decimal stored in a rule dictionary is negative. *)
Definition value_nonneg (v : value) : bool :=
  match v with
  | VDec d => 0 <=? Decimal.coef d
  | VStr _ => true
  end.

Definition dict_nonneg (d : gmap string value) : Prop :=
  map_Forall (fun _ v => value_nonneg v = true) d.

(** No rate, cap or amount of a state is negative. *)
Definition state_nonneg (info : StateInfo) : bool :=
  (0 <=? Decimal.coef (cigarette_tax info))
  && bool_decide (dict_nonneg (cigar_tax info))
  && match vape_tax info with
     | Some d => bool_decide (dict_nonneg d)
     | None => true
     end
  && (0 <=? Decimal.coef (sales_tax_rate info)).

Definition table_nonneg (self : gmap string StateInfo) : Prop :=
  map_Forall (fun _ info => state_nonneg info = true) self.

(** The prices and quantities of a cart are not negative. *)
Definition cart_nonneg (cart_items : list CartItem) : Prop :=
  Forall (fun item => nn (price (product item)) /\ 0 <= cart_quantity item)
    cart_items.

(** Two sample products and a cart of three packs and two bottles. *)
Definition marlboro : Product :=
  {| product_id := 7; name := "Marlboro Cigarettes"; description := None;
     price := Decimal.lit "10.00"; category := None |}.

Definition vape_juice : Product :=
  {| product_id := 2; name := "Vape Juice 30 ML"; description := None;
     price := Decimal.lit "20.00";
     category := Some {| category_name := "Vapes" |} |}.

Definition sample_cart : list CartItem :=
  [ {| product := marlboro; cart_quantity := 3 |};
    {| product := vape_juice; cart_quantity := 2 |} ].




(** The character is not a digit. *)
Definition not_digit (c : ascii) : bool := negb (Str.is_digit c).

(** The head of [s], if any, fails the test [q]. *)
Definition head_fails (q : ascii -> bool) (s : string) : Prop :=
  match s with
  | EmptyString => True
  | String c _ => q c = false
  end.

(** The excise the sentence of the specification for the closed sub-type
    prescribes: a sub-rate below 1 is a percentage of the price, zero
    when the price is missing; any other is a per-volume amount when a
    volume is given and a flat per-unit amount when none is. *)
Definition spec_closed_excise (closed : Dec) (price volume_ml : option Dec)
    (quantity : Z) : Dec :=
  if Decimal.ltb closed (Decimal.lit "1")
  then match price with
       | Some price => price *d closed *d Decimal.of_int quantity
       | None => zero
       end
  else match volume_ml with
       | Some volume_ml => volume_ml *d closed *d Decimal.of_int quantity
       | None => closed *d Decimal.of_int quantity
       end.

(** A closed-system product whose name states a volume of 0 mL. *)
Definition vape_pod_0ml : Product :=
  {| product_id := 11; name := "Vape Pod 0ml"; description := None;
     price := Decimal.lit "9.99"; category := None |}.

(* ===================================================================== *)
(** * Properties *)
(* ===================================================================== *)

(** ** Decimal arithmetic denotes rational arithmetic *)

Module DecimalFacts.
Import Decimal.

Lemma ten_nonzero : ~ ((10 # 1) == 0)%Q.
Proof. discriminate. Qed.

Lemma ten_pow_pos (e : Z) : (0 < (10 # 1) ^ e)%Q.
Proof. apply Qpower_0_lt. reflexivity. Qed.

Lemma align_value (a : t) (e : Z) :
  e <= exp a -> (inject_Z (align a e) * (10 # 1) ^ e == value a)%Q.
Proof.
  intros He. unfold align, value.
  rewrite inject_Z_mult, Zpower_Qpower by lia.
  change (inject_Z 10) with (10 # 1)%Q.
  rewrite <- Qmult_assoc, <- Qpower_plus by apply ten_nonzero.
  replace (exp a - e + e) with (exp a) by lia. reflexivity.
Qed.

Lemma value_add (a b : t) : (value (add a b) == value a + value b)%Q.
Proof.
  unfold add. set (e := Z.min (exp a) (exp b)).
  unfold value at 1. cbn [coef exp].
  rewrite inject_Z_plus, Qmult_plus_distr_l.
  rewrite !align_value by (subst e; lia). reflexivity.
Qed.

Lemma value_mul (a b : t) : (value (mul a b) == value a * value b)%Q.
Proof.
  unfold mul, value. cbn [coef exp].
  rewrite inject_Z_mult, Qpower_plus by apply ten_nonzero. ring.
Qed.


Lemma value_zero : (value zero == 0)%Q.
Proof. reflexivity. Qed.

Lemma ltb_lt (a b : t) : ltb a b = true <-> (value a < value b)%Q.
Proof.
  unfold ltb. set (e := Z.min (exp a) (exp b)).
  rewrite <- (align_value a e), <- (align_value b e) by (subst e; lia).
  rewrite Qmult_lt_r by apply ten_pow_pos.
  rewrite <- Zlt_Qlt. apply Z.ltb_lt.
Qed.

Lemma eqb_eqv (a b : t) : eqb a b = true <-> eqv a b.
Proof.
  unfold eqb, eqv. set (e := Z.min (exp a) (exp b)).
  rewrite <- (align_value a e), <- (align_value b e) by (subst e; lia).
  rewrite Qmult_inj_r by (apply Qpower_not_0, ten_nonzero).
  rewrite inject_Z_injective. apply Z.eqb_eq.
Qed.

Lemma truthy_value (a : t) : truthy a = false <-> (value a == 0)%Q.
Proof.
  unfold truthy, value. rewrite negb_false_iff, Z.eqb_eq. split.
  - intros ->. ring.
  - intros H. apply Qmult_integral in H as [H | H].
    + apply (inject_Z_injective (coef a) 0). exact H.
    + exfalso. apply (Qpower_not_0 (10 # 1) (exp a) ten_nonzero H).
Qed.


#[export] Instance eqv_equiv : Equivalence eqv.
Proof.
  split.
  - intros a. unfold eqv. reflexivity.
  - intros a b H. unfold eqv in *. symmetry. exact H.
  - intros a b c H1 H2. unfold eqv in *. rewrite H1. exact H2.
Qed.

#[export] Instance add_proper : Proper (eqv ==> eqv ==> eqv) add.
Proof.
  intros a a' Ha b b' Hb. unfold eqv in *.
  rewrite !value_add, Ha, Hb. reflexivity.
Qed.

#[export] Instance mul_proper : Proper (eqv ==> eqv ==> eqv) mul.
Proof.
  intros a a' Ha b b' Hb. unfold eqv in *.
  rewrite !value_mul, Ha, Hb. reflexivity.
Qed.

End DecimalFacts.

(** ** Well-formed rule dictionaries never raise *)

Lemma tax_data_ok : table_ok tax_data.
Proof. apply (bool_decide_unpack _). vm_compute. reflexivity. Qed.

Lemma tax_data_size : size tax_data = 51%nat.
Proof. vm_compute. reflexivity. Qed.

(** Reading the dictionary accessors off a lookup. *)
Lemma getitem_Some d k v : d !! k = Some v -> getitem d k = Ok v.
Proof. unfold getitem. intros ->. reflexivity. Qed.

Lemma getdec_Some d k x : d !! k = Some (VDec x) -> getdec d k = Ok x.
Proof. unfold getdec, getitem. intros ->. reflexivity. Qed.

Lemma has_key_Some d k v : d !! k = Some v -> has_key d k = true.
Proof. unfold has_key. intros ->. reflexivity. Qed.

Lemma has_key_None d k : d !! k = None -> has_key d k = false.
Proof. unfold has_key. intros ->. reflexivity. Qed.

Lemma dec_at_getdec d k : dec_at d k = true -> exists x, getdec d k = Ok x.
Proof.
  unfold dec_at. destruct (d !! k) as [[s | x] |] eqn:E; try discriminate.
  intros _. exists x. apply getdec_Some, E.
Qed.

Lemma dec_if_present_getdec d k :
  dec_if_present d k = true -> has_key d k = true -> exists x, getdec d k = Ok x.
Proof.
  unfold dec_if_present, has_key.
  destruct (d !! k) as [[s | x] |] eqn:E; try discriminate.
  intros _ _. exists x. apply getdec_Some, E.
Qed.

(** Closes a goal [exists r, e = Ok r] once [e] has been reduced. *)
Ltac returns := eexists; reflexivity.

(** Case analysis on the head [if] of the goal. *)
Ltac split_if :=
  match goal with
  | |- context [if ?b then _ else _] => destruct b eqn:?
  end.

Section Totality.

Variable self : gmap string StateInfo.
Hypothesis self_ok : table_ok self.

Lemma cigarette_returns state quantity :
  exists r, calculate_cigarette_tax self state quantity = Ok r.
Proof. unfold calculate_cigarette_tax. destruct (self !! state); returns. Qed.

Lemma sales_returns state taxable_amount :
  exists r, calculate_sales_tax self state taxable_amount = Ok r.
Proof.
  unfold calculate_sales_tax. destruct (self !! state); [| returns].
  split_if; returns.
Qed.

Lemma cigar_returns state wholesale_price quantity :
  exists r, calculate_cigar_tax self state wholesale_price quantity = Ok r.
Proof.
  unfold calculate_cigar_tax.
  destruct (self !! state) as [info |] eqn:Hst; [| returns].
  apply self_ok in Hst. unfold state_ok in Hst.
  apply andb_prop in Hst as [Hc _]. unfold cigar_rule_ok in Hc.
  destruct (cigar_tax info !! "type") as [ty |] eqn:Hty; [| discriminate].
  rewrite (getitem_Some _ _ _ Hty). cbn [bind].
  destruct (is_str ty "none"); [returns |].
  destruct (is_str ty "percentage").
  - apply andb_prop in Hc as [Hc Hhigh]. apply andb_prop in Hc as [Hc Hlow].
    apply andb_prop in Hc as [Hrate Hcap].
    destruct (dec_at_getdec _ _ Hrate) as [rate ->]. cbn [bind].
    destruct (has_key (cigar_tax info) "cap") eqn:Kcap.
    + destruct (dec_if_present_getdec _ _ Hcap Kcap) as [cap ->]. returns.
    + destruct (has_key (cigar_tax info) "cap_low") eqn:Klow; [| returns].
      destruct (has_key (cigar_tax info) "cap_high") eqn:Khigh; [| returns].
      cbn [andb].
      destruct (dec_if_present_getdec _ _ Hlow Klow) as [lo ->].
      destruct (dec_if_present_getdec _ _ Hhigh Khigh) as [hi ->].
      split_if; returns.
  - destruct (is_str ty "per_unit"); [| returns].
    destruct (dec_at_getdec _ _ Hc) as [rate ->]. returns.
Qed.

Lemma if_truthy_returns (x : option Dec) (yes : Dec -> res Dec) (no : res Dec) :
  (forall d, exists r, yes d = Ok r) -> (exists r, no = Ok r) ->
  exists r, if_truthy x yes no = Ok r.
Proof.
  intros Hyes Hno. unfold if_truthy.
  destruct x as [d |]; [| exact Hno].
  destruct (Decimal.truthy d); [apply Hyes | exact Hno].
Qed.

Lemma vape_rule_returns d product_type price volume_ml quantity :
  vape_rule_ok d = true -> d <> ∅ ->
  exists r, vape_rule_tax d product_type price volume_ml quantity = Ok r.
Proof.
  intros Hok Hne. unfold vape_rule_ok in Hok. unfold vape_rule_tax.
  destruct (d !! "type") as [ty |] eqn:Hty.
  2: { apply bool_decide_eq_true in Hok. contradiction. }
  rewrite (getitem_Some _ _ _ Hty). cbn [bind].
  destruct (is_str ty "percentage").
  { destruct (dec_at_getdec _ _ Hok) as [rate ->].
    apply if_truthy_returns; [intros; returns | returns]. }
  destruct (is_str ty "per_ml").
  { destruct (dec_at_getdec _ _ Hok) as [rate ->].
    apply if_truthy_returns; [intros; returns | returns]. }
  destruct (is_str ty "bifurcated").
  { split_if.
    - destruct (d !! "open") as [[s | open] |]; try returns.
      apply if_truthy_returns; [intros; returns |].
      apply if_truthy_returns; [intros; returns | returns].
    - split_if; [| returns].
      destruct (d !! "closed") as [[s | closed] |]; try returns.
      split_if; apply if_truthy_returns; try (intros; returns); returns. }
  destruct (is_str ty "dual"); [| returns].
  apply andb_prop in Hok as [Hw Hr].
  assert (Hfirst : exists t1,
    if_truthy price
      (fun price0 =>
         if has_key d "wholesale"
         then let* wholesale := getdec d "wholesale" in
              Ok (zero +d price0 *d wholesale)
         else Ok zero) (Ok zero) = Ok t1).
  { apply if_truthy_returns; [| returns]. intros p.
    destruct (has_key d "wholesale") eqn:K; [| returns].
    destruct (dec_if_present_getdec _ _ Hw K) as [w ->]. returns. }
  destruct Hfirst as [t1 ->]. cbn [bind].
  assert (Hsecond : exists t2,
    if_truthy price
      (fun price0 =>
         if has_key d "retail"
         then let* retail := getdec d "retail" in
              Ok (t1 +d price0 *d retail)
         else Ok t1) (Ok t1) = Ok t2).
  { apply if_truthy_returns; [| returns]. intros p.
    destruct (has_key d "retail") eqn:K; [| returns].
    destruct (dec_if_present_getdec _ _ Hr K) as [w ->]. returns. }
  destruct Hsecond as [t2 ->]. returns.
Qed.

Lemma vape_returns state product_type price volume_ml quantity :
  exists r,
    calculate_vape_tax self state product_type price volume_ml quantity = Ok r.
Proof.
  unfold calculate_vape_tax.
  destruct (self !! state) as [info |] eqn:Hst; [| returns].
  apply self_ok in Hst. unfold state_ok in Hst.
  apply andb_prop in Hst as [_ Hv].
  destruct (vape_tax info) as [d |]; [| returns].
  destruct (decide (d = ∅)) as [| Hne]; [returns |].
  apply vape_rule_returns; assumption.
Qed.

Lemma excise_returns state product_type base_price quantity volume_ml :
  exists r,
    excise_for self state product_type base_price quantity volume_ml = Ok r.
Proof.
  unfold excise_for.
  split_if; [apply cigarette_returns |].
  split_if; [apply cigar_returns |].
  split_if; [apply vape_returns | returns].
Qed.

Lemma total_tax_returns state product_type base_price quantity volume_ml :
  exists t,
    calculate_total_tax self state product_type base_price quantity volume_ml
    = Ok t.
Proof.
  unfold calculate_total_tax.
  destruct (excise_returns state product_type base_price quantity volume_ml)
    as [e ->]. cbn [bind].
  destruct (sales_returns state (base_price +d e)) as [s ->]. returns.
Qed.

Lemma product_tax_returns product state quantity :
  exists i, calculate_product_tax self product state quantity = Ok i.
Proof.
  unfold calculate_product_tax.
  destruct (total_tax_returns state (_get_product_type product)
              (price product) quantity (_extract_volume_ml product)) as [t ->].
  returns.
Qed.

Lemma cart_loop_returns cart_items state s0 :
  exists s, cart_loop self cart_items state s0 = Ok s.
Proof.
  revert s0. induction cart_items as [| item rest IH]; intros s0; cbn [cart_loop].
  - returns.
  - destruct (product_tax_returns (product item) state (cart_quantity item))
      as [i ->]. cbn [bind]. apply IH.
Qed.

Lemma cart_tax_returns cart_items state :
  exists s, calculate_cart_tax self cart_items state = Ok s.
Proof.
  unfold calculate_cart_tax.
  destruct (cart_loop_returns cart_items state
              (Summary.mk [] zero zero zero zero zero state)) as [s ->].
  returns.
Qed.

End Totality.

(** ** What a returned breakdown contains *)

Lemma bind_Ok {A B : Type} (m : res A) (k : A -> res B) (b : B) :
  bind m k = Ok b -> exists a, m = Ok a /\ k a = Ok b.
Proof. destruct m as [a | e]; cbn; [eauto | discriminate]. Qed.

Lemma zero_value : (Decimal.value zero == 0)%Q.
Proof. reflexivity. Qed.

Section Breakdown.

Variable self : gmap string StateInfo.

Lemma total_tax_inv state product_type base_price quantity volume_ml t :
  calculate_total_tax self state product_type base_price quantity volume_ml
    = Ok t ->
  excise_for self state product_type base_price quantity volume_ml
    = Ok (Taxes.excise_tax t)
  /\ calculate_sales_tax self state (base_price +d Taxes.excise_tax t)
    = Ok (Taxes.sales_tax t)
  /\ Taxes.total_tax t = Taxes.excise_tax t +d Taxes.sales_tax t.
Proof.
  unfold calculate_total_tax. intros H.
  apply bind_Ok in H as (e & He & H).
  apply bind_Ok in H as (s & Hs & H).
  injection H as <-. cbn. auto.
Qed.

Lemma product_tax_inv product state quantity i :
  calculate_product_tax self product state quantity = Ok i ->
  calculate_total_tax self state (_get_product_type product) (price product)
    quantity (_extract_volume_ml product) = Ok (Item.taxes i)
  /\ Item.base_price i = price product
  /\ Item.quantity i = quantity
  /\ Item.state i = state
  /\ Item.price_with_tax i = price product +d Item.total_tax i.
Proof.
  unfold calculate_product_tax. intros H.
  apply bind_Ok in H as (t & Ht & H). injection H as <-. cbn. auto.
Qed.


(** Invariant of the cart loop: the items computed so far are appended
    in order and each running sum grows by the matching entry. *)
Lemma cart_loop_inv cart_items state s0 s :
  cart_loop self cart_items state s0 = Ok s ->
  exists new_items,
    Forall2 (item_of self state) cart_items new_items
    /\ Summary.items s = (Summary.items s0 ++ new_items)%list
    /\ (Decimal.value (Summary.subtotal s) ==
          Decimal.value (Summary.subtotal s0)
          + total_of Item.base_price new_items)%Q
    /\ (Decimal.value (Summary.total_excise_tax s) ==
          Decimal.value (Summary.total_excise_tax s0)
          + total_of Item.excise_tax new_items)%Q
    /\ (Decimal.value (Summary.total_sales_tax s) ==
          Decimal.value (Summary.total_sales_tax s0)
          + total_of Item.sales_tax new_items)%Q
    /\ (Decimal.value (Summary.total_tax s) ==
          Decimal.value (Summary.total_tax s0)
          + total_of Item.total_tax new_items)%Q
    /\ Summary.state s = Summary.state s0.
Proof.
  revert s0. induction cart_items as [| item rest IH]; intros s0 H.
  - cbn in H. injection H as <-. exists [].
    rewrite app_nil_r. cbn [total_of fold_right].
    repeat split; try constructor; ring.
  - cbn [cart_loop] in H. apply bind_Ok in H as (i & Hi & H).
    apply IH in H as (new & Hall & Hitems & Hsub & Hex & Hsal & Htot & Hst).
    cbn [Summary.items Summary.subtotal Summary.total_excise_tax
         Summary.total_sales_tax Summary.total_tax Summary.state] in *.
    exists (i :: new). split; [constructor; assumption |].
    split; [rewrite Hitems, <- app_assoc; reflexivity |].
    rewrite DecimalFacts.value_add in Hsub, Hex, Hsal, Htot.
    cbn [total_of fold_right]. fold (total_of Item.base_price new).
    fold (total_of Item.excise_tax new). fold (total_of Item.sales_tax new).
    fold (total_of Item.total_tax new).
    repeat split; [rewrite Hsub | rewrite Hex | rewrite Hsal | rewrite Htot
                   | exact Hst]; ring.
Qed.


Lemma cart_tax_inv cart_items state s :
  calculate_cart_tax self cart_items state = Ok s ->
  Forall2 (item_of self state) cart_items (Summary.items s)
  /\ (Decimal.value (Summary.subtotal s) ==
        total_of Item.base_price (Summary.items s))%Q
  /\ (Decimal.value (Summary.total_excise_tax s) ==
        total_of Item.excise_tax (Summary.items s))%Q
  /\ (Decimal.value (Summary.total_sales_tax s) ==
        total_of Item.sales_tax (Summary.items s))%Q
  /\ (Decimal.value (Summary.total_tax s) ==
        total_of Item.total_tax (Summary.items s))%Q
  /\ Summary.grand_total s = Summary.subtotal s +d Summary.total_tax s
  /\ Summary.state s = state.
Proof.
  unfold calculate_cart_tax. intros H.
  apply bind_Ok in H as (s1 & Hloop & H). injection H as <-.
  apply cart_loop_inv in Hloop
    as (new & Hall & Hitems & Hsub & Hex & Hsal & Htot & Hst).
  cbn [Summary.items Summary.subtotal Summary.total_excise_tax
       Summary.total_sales_tax Summary.total_tax Summary.grand_total
       Summary.state app] in *.
  subst new. rewrite zero_value in Hsub, Hex, Hsal, Htot.
  rewrite Hsub, Hex, Hsal, Htot.
  repeat split; try assumption; try reflexivity; ring.
Qed.

End Breakdown.

(** ** Vape rules no branch applies to *)

Lemma vape_rule_bifurcated_no_subrate d product_type price volume_ml quantity :
  d !! "type" = Some (VStr "bifurcated") ->
  d !! "open" = None -> d !! "closed" = None ->
  vape_rule_tax d product_type price volume_ml quantity = Ok zero.
Proof.
  intros Hty Hopen Hclosed. unfold vape_rule_tax.
  rewrite (getitem_Some _ _ _ Hty). cbn [bind is_str].
  rewrite (has_key_None _ _ Hopen), (has_key_None _ _ Hclosed).
  rewrite !andb_false_r. reflexivity.
Qed.

Lemma vape_rule_unmatched_type d ty product_type price volume_ml quantity :
  d !! "type" = Some (VStr ty) ->
  str_in_list ty ["percentage"; "per_ml"; "bifurcated"; "dual"] = false ->
  vape_rule_tax d product_type price volume_ml quantity = Ok zero.
Proof.
  intros Hty Hnot. unfold vape_rule_tax.
  rewrite (getitem_Some _ _ _ Hty). cbn [bind is_str].
  unfold str_in_list in Hnot. cbn [existsb] in Hnot.
  rewrite !orb_false_iff in Hnot. destruct Hnot as (H1 & H2 & H3 & H4 & _).
  rewrite H1, H2, H3, H4. reflexivity.
Qed.

Lemma calculate_vape_tax_rule self state info d product_type price volume_ml quantity :
  self !! state = Some info -> vape_tax info = Some d -> d <> ∅ ->
  calculate_vape_tax self state product_type price volume_ml quantity
  = vape_rule_tax d product_type price volume_ml quantity.
Proof.
  intros Hst Hv Hne. unfold calculate_vape_tax. rewrite Hst, Hv.
  destruct (decide (d = ∅)); [contradiction | reflexivity].
Qed.

Lemma dict_type_nonempty (d : gmap string value) v : d !! "type" = Some v -> d <> ∅.
Proof. intros H ->. rewrite lookup_empty in H. discriminate. Qed.

(** C10. Nebraska's bifurcated vape rule stores its sub-rates under the
    keys 'small' and 'large', and New York's vape rule has the type
    'retail': no branch of [calculate_vape_tax] applies to either, so the
    vape excise of NE and of NY is [Decimal('0')] for every product type,
    price, volume and quantity. *)
Theorem vape_excise_zero_NE_NY
    (product_type : string) (price volume_ml : option Dec) (quantity : Z) :
  calculate_vape_tax tax_data "NE" product_type price volume_ml quantity = Ok zero
  /\ calculate_vape_tax tax_data "NY" product_type price volume_ml quantity = Ok zero.
Proof.
  split.
  - assert (H : exists info d,
      tax_data !! "NE" = Some info /\ vape_tax info = Some d
      /\ d !! "type" = Some (VStr "bifurcated")
      /\ d !! "open" = None /\ d !! "closed" = None
      /\ d !! "small" = Some (D "0.05") /\ d !! "large" = Some (D "0.10")).
    { eexists _, _. repeat split; vm_compute; reflexivity. }
    destruct H as (info & d & Hst & Hv & Hty & Hopen & Hclosed & _).
    rewrite (calculate_vape_tax_rule _ _ _ _ _ _ _ _ Hst Hv (dict_type_nonempty _ _ Hty)).
    apply vape_rule_bifurcated_no_subrate; assumption.
  - assert (H : exists info d,
      tax_data !! "NY" = Some info /\ vape_tax info = Some d
      /\ d !! "type" = Some (VStr "retail")).
    { eexists _, _. repeat split; vm_compute; reflexivity. }
    destruct H as (info & d & Hst & Hv & Hty).
    rewrite (calculate_vape_tax_rule _ _ _ _ _ _ _ _ Hst Hv (dict_type_nonempty _ _ Hty)).
    apply (vape_rule_unmatched_type _ _ _ _ _ _ Hty). reflexivity.
Qed.

(** ** Cigarette excise *)




(** ** A jurisdiction the table does not have *)

Section UnknownState.

Variable self : gmap string StateInfo.
Variable state : string.
Hypothesis unknown : self !! state = None.

Lemma cigarette_unknown quantity :
  calculate_cigarette_tax self state quantity = Ok zero.
Proof. unfold calculate_cigarette_tax. rewrite unknown. reflexivity. Qed.

Lemma cigar_unknown wholesale_price quantity :
  calculate_cigar_tax self state wholesale_price quantity = Ok zero.
Proof. unfold calculate_cigar_tax. rewrite unknown. reflexivity. Qed.

Lemma vape_unknown product_type price volume_ml quantity :
  calculate_vape_tax self state product_type price volume_ml quantity = Ok zero.
Proof. unfold calculate_vape_tax. rewrite unknown. reflexivity. Qed.

Lemma sales_unknown taxable_amount :
  calculate_sales_tax self state taxable_amount = Ok zero.
Proof. unfold calculate_sales_tax. rewrite unknown. reflexivity. Qed.

Lemma excise_unknown product_type base_price quantity volume_ml :
  excise_for self state product_type base_price quantity volume_ml = Ok zero.
Proof.
  unfold excise_for.
  rewrite cigarette_unknown, cigar_unknown, vape_unknown.
  repeat split_if; reflexivity.
Qed.

Lemma total_tax_unknown product_type base_price quantity volume_ml :
  calculate_total_tax self state product_type base_price quantity volume_ml
  = Ok (Taxes.mk zero zero zero).
Proof.
  unfold calculate_total_tax.
  rewrite excise_unknown. cbn [bind]. rewrite sales_unknown. reflexivity.
Qed.

Lemma product_tax_unknown product quantity :
  exists i, calculate_product_tax self product state quantity = Ok i
            /\ untaxed i.
Proof.
  unfold calculate_product_tax. rewrite total_tax_unknown. cbn [bind].
  eexists. split; [reflexivity |]. repeat split.
Qed.

Lemma cart_loop_unknown cart_items s0 :
  Forall untaxed (Summary.items s0) ->
  Summary.total_excise_tax s0 = zero ->
  Summary.total_sales_tax s0 = zero ->
  Summary.total_tax s0 = zero ->
  exists s, cart_loop self cart_items state s0 = Ok s
    /\ Forall untaxed (Summary.items s)
    /\ Summary.total_excise_tax s = zero
    /\ Summary.total_sales_tax s = zero
    /\ Summary.total_tax s = zero.
Proof.
  revert s0. induction cart_items as [| item rest IH];
    intros s0 Hitems Hex Hsal Htot; cbn [cart_loop].
  - exists s0. auto.
  - destruct (product_tax_unknown (product item) (cart_quantity item))
      as (i & -> & Hi). cbn [bind].
    destruct Hi as (Hie & His & Hit).
    apply IH; cbn [Summary.items Summary.total_excise_tax
                   Summary.total_sales_tax Summary.total_tax].
    + apply Forall_app. split; [exact Hitems |].
      constructor; [repeat split; assumption | constructor].
    + rewrite Hex, Hie. reflexivity.
    + rewrite Hsal, His. reflexivity.
    + rewrite Htot, Hit. reflexivity.
Qed.

End UnknownState.

(** C3. For a jurisdiction code that the rule table does not have, each
    of the four calculators (cigarette, cigar, vape, sales tax) returns
    [Decimal('0')] without raising, and for every cart
    [calculate_cart_tax] returns a summary in which the excise, sales and
    total tax of every item and the three tax totals are [Decimal('0')]
    and [grand_total == subtotal]. *)
Theorem unknown_jurisdiction_all_zero
    (self : gmap string StateInfo) (state : string) (cart_items : list CartItem) :
  self !! state = None ->
  (forall q, calculate_cigarette_tax self state q = Ok zero)
  /\ (forall p q, calculate_cigar_tax self state p q = Ok zero)
  /\ (forall ty p v q, calculate_vape_tax self state ty p v q = Ok zero)
  /\ (forall a, calculate_sales_tax self state a = Ok zero)
  /\ exists s, calculate_cart_tax self cart_items state = Ok s
      /\ Forall untaxed (Summary.items s)
      /\ Summary.total_excise_tax s = zero
      /\ Summary.total_sales_tax s = zero
      /\ Summary.total_tax s = zero
      /\ Decimal.eqb (Summary.grand_total s) (Summary.subtotal s) = true.
Proof.
  intros Hst.
  split; [intros; apply cigarette_unknown, Hst |].
  split; [intros; apply cigar_unknown, Hst |].
  split; [intros; apply vape_unknown, Hst |].
  split; [intros; apply sales_unknown, Hst |].
  unfold calculate_cart_tax.
  destruct (cart_loop_unknown self state Hst cart_items
              (Summary.mk [] zero zero zero zero zero state))
    as (s & -> & Hitems & Hex & Hsal & Htot); try reflexivity; [constructor |].
  cbn [bind]. eexists. split; [reflexivity |].
  cbn [Summary.items Summary.total_excise_tax Summary.total_sales_tax
       Summary.total_tax Summary.grand_total Summary.subtotal].
  repeat split; try assumption.
  apply DecimalFacts.eqb_eqv. unfold Decimal.eqv.
  rewrite DecimalFacts.value_add, Htot, zero_value. ring.
Qed.

Lemma unknown_jurisdiction_ZZ :
  tax_data !! "ZZ" = None
  /\ exists s,
      calculate_cart_tax tax_data
        [ {| product := {| product_id := 1; name := "Premium Cigarettes";
                           description := None; price := Decimal.lit "9.50";
                           category := None |};
             cart_quantity := 2 |} ] "ZZ" = Ok s
      /\ Summary.total_tax s = zero
      /\ Decimal.eqb (Summary.grand_total s) (Summary.subtotal s) = true.
Proof.
  assert (H : tax_data !! "ZZ" = None) by (vm_compute; reflexivity).
  split; [exact H |].
  destruct (unknown_jurisdiction_all_zero tax_data "ZZ"
    [ {| product := {| product_id := 1; name := "Premium Cigarettes";
                       description := None; price := Decimal.lit "9.50";
                       category := None |};
         cart_quantity := 2 |} ] H)
    as (_ & _ & _ & _ & s & Hs & _ & _ & _ & Htot & Hg).
  exists s. auto.
Defined.

(** ** Cart totals *)







(** Three packs at $10.00 in Delaware: the subtotal is $10.00, the
    excise is 3 x $2.100 and [price_with_tax] is $10.00 + $6.300. *)
Example three_packs_DE :
  exists s i,
    calculate_cart_tax tax_data
      [ {| product := {| product_id := 7; name := "Marlboro Cigarettes";
                         description := None; price := Decimal.lit "10.00";
                         category := None |};
           cart_quantity := 3 |} ] "DE" = Ok s
    /\ Summary.items s = [i]
    /\ Summary.subtotal s = Decimal.lit "10.00"
    /\ Summary.total_excise_tax s = Decimal.lit "6.300"
    /\ Summary.grand_total s = Decimal.lit "16.300"
    /\ Item.price_with_tax i = Decimal.lit "16.300".
Proof. eexists _, _. repeat split; vm_compute; reflexivity. Qed.

(** ** Sales tax *)

(** C6. For every jurisdiction of the rule table and every item, the
    sales tax is computed on [taxable_amount = base_price + excise_tax]:
    it is [Decimal('0')] when [sales_tax_applies] is false and
    [taxable_amount * sales_tax_rate] otherwise, and the total tax is the
    excise plus that sales tax; with a rate of 5%, a price of $10 and an
    excise of $2 the sales tax is $0.60 and the total tax $2.60. *)
Theorem sales_tax_on_price_plus_excise
    (self : gmap string StateInfo) (state : string) (info : StateInfo)
    (product_type : string) (base_price : Dec) (quantity : Z)
    (volume_ml : option Dec) :
  table_ok self -> self !! state = Some info ->
  exists t,
    calculate_total_tax self state product_type base_price quantity volume_ml
      = Ok t
    /\ excise_for self state product_type base_price quantity volume_ml
      = Ok (Taxes.excise_tax t)
    /\ calculate_sales_tax self state (base_price +d Taxes.excise_tax t)
      = Ok (Taxes.sales_tax t)
    /\ Taxes.sales_tax t =
         (if sales_tax_applies info
          then (base_price +d Taxes.excise_tax t) *d sales_tax_rate info
          else zero)
    /\ Taxes.total_tax t = Taxes.excise_tax t +d Taxes.sales_tax t
    /\ (sales_tax_applies info = true ->
        sales_tax_rate info ==d Decimal.lit "0.05" ->
        base_price ==d Decimal.lit "10" ->
        Taxes.excise_tax t ==d Decimal.lit "2" ->
        Taxes.sales_tax t ==d Decimal.lit "0.60"
        /\ Taxes.total_tax t ==d Decimal.lit "2.60").
Proof.
  intros Hok Hst.
  destruct (total_tax_returns self Hok state product_type base_price quantity
              volume_ml) as [t Ht].
  exists t. split; [exact Ht |].
  apply total_tax_inv in Ht as (He & Hs & Htot).
  split; [exact He |]. split; [exact Hs |].
  assert (Hsales : Taxes.sales_tax t =
    (if sales_tax_applies info
     then (base_price +d Taxes.excise_tax t) *d sales_tax_rate info
     else zero)).
  { unfold calculate_sales_tax in Hs. rewrite Hst in Hs.
    destruct (sales_tax_applies info); cbn [negb] in Hs;
      injection Hs as <-; reflexivity. }
  split; [exact Hsales |]. split; [exact Htot |].
  intros Happ Hrate Hbase Hex. rewrite Happ in Hsales.
  unfold Decimal.eqv in *.
  rewrite Htot, DecimalFacts.value_add, Hsales.
  rewrite DecimalFacts.value_mul, DecimalFacts.value_add, Hrate, Hbase, Hex.
  split; vm_compute; reflexivity.
Qed.

Lemma sales_tax_on_price_plus_excise_WI :
  table_ok tax_data
  /\ (exists info, tax_data !! "WI" = Some info)
  /\ exists t,
      calculate_total_tax tax_data "WI" "vape_open" (Decimal.lit "10.00") 1
        (Some (Decimal.lit "40")) = Ok t
      /\ Taxes.excise_tax t ==d Decimal.lit "2"
      /\ Taxes.sales_tax t ==d Decimal.lit "0.60"
      /\ Taxes.total_tax t ==d Decimal.lit "2.60".
Proof.
  split; [exact tax_data_ok |].
  assert (H : exists info, tax_data !! "WI" = Some info
                           /\ sales_tax_applies info = true
                           /\ sales_tax_rate info = Decimal.lit "0.05").
  { eexists. repeat split; vm_compute; reflexivity. }
  destruct H as (info & Hst & Happ & Hrate).
  split; [exists info; exact Hst |].
  destruct (sales_tax_on_price_plus_excise tax_data "WI" info "vape_open"
              (Decimal.lit "10.00") 1 (Some (Decimal.lit "40")) tax_data_ok Hst)
    as (t & Ht & He & _ & _ & _ & Hex).
  assert (Hexc : Taxes.excise_tax t ==d Decimal.lit "2").
  { assert (E : excise_for tax_data "WI" "vape_open" (Decimal.lit "10.00") 1
                  (Some (Decimal.lit "40")) = Ok (Decimal.lit "2.00"))
      by (vm_compute; reflexivity).
    rewrite E in He. injection He as <-. vm_compute. reflexivity. }
  exists t. split; [exact Ht |]. split; [exact Hexc |].
  apply Hex; [exact Happ | rewrite Hrate; reflexivity
              | vm_compute; reflexivity | exact Hexc].
Defined.

(** ** Cigar excise, percentage rule *)

Section CigarPercentage.

Variable self : gmap string StateInfo.
Variables (J : string) (info : StateInfo) (rate : Dec).
Hypothesis known : self !! J = Some info.
Hypothesis percentage : cigar_tax info !! "type" = Some (VStr "percentage").
Hypothesis has_rate : cigar_tax info !! "rate" = Some (VDec rate).





End CigarPercentage.





(** Vermont's tiered pair, with a price on each side of $10. *)
Example cigar_tiered_VT :
  calculate_cigar_tax tax_data "VT" (Decimal.lit "8.00") 1 = Ok (Decimal.lit "2.00")
  /\ calculate_cigar_tax tax_data "VT" (Decimal.lit "12.00") 1 = Ok (Decimal.lit "4.00").
Proof. split; vm_compute; reflexivity. Qed.

(** ** Vape excise, bifurcated rule *)

Lemma if_truthy_yes {A : Type} (d : Dec) (yes : Dec -> A) (no : A) :
  Decimal.truthy d = true -> if_truthy (Some d) yes no = yes d.
Proof. unfold if_truthy. intros ->. reflexivity. Qed.

Lemma if_truthy_no {A : Type} (x : option Dec) (yes : Dec -> A) (no : A) :
  falsy x -> if_truthy x yes no = no.
Proof. unfold if_truthy, falsy. destruct x as [d |]; [intros -> |]; reflexivity. Qed.

Lemma ltb_one (r : Dec) :
  Decimal.ltb r (Decimal.lit "1") = true <-> (Decimal.value r < 1)%Q.
Proof. rewrite DecimalFacts.ltb_lt. reflexivity. Qed.

Lemma ltb_one_false (r : Dec) :
  Decimal.ltb r (Decimal.lit "1") = false <-> (1 <= Decimal.value r)%Q.
Proof.
  split.
  - intros E. apply Qnot_lt_le. intros H. apply ltb_one in H. congruence.
  - intros H. destruct (Decimal.ltb r (Decimal.lit "1")) eqn:E; [| reflexivity].
    apply ltb_one in E. exfalso. apply (Qlt_not_le _ _ E H).
Qed.

Section VapeBifurcated.

Variable self : gmap string StateInfo.
Variables (J : string) (info : StateInfo) (d : gmap string value).
Hypothesis known : self !! J = Some info.
Hypothesis has_rule : vape_tax info = Some d.
Hypothesis bifurcated : d !! "type" = Some (VStr "bifurcated").

Lemma vape_closed_unfold closed price volume_ml quantity :
  d !! "closed" = Some (VDec closed) ->
  calculate_vape_tax self J "closed" price volume_ml quantity =
  let q := Decimal.of_int quantity in
  if Decimal.ltb closed (Decimal.lit "1") then
    if_truthy price (fun price => Ok (price *d closed *d q)) (Ok zero)
  else
    if_truthy volume_ml (fun volume_ml => Ok (volume_ml *d closed *d q))
      (Ok (closed *d q)).
Proof.
  intros Hclosed.
  rewrite (calculate_vape_tax_rule _ _ _ _ _ _ _ _ known has_rule
             (dict_type_nonempty _ _ bifurcated)).
  unfold vape_rule_tax. rewrite (getitem_Some _ _ _ bifurcated).
  cbn [bind is_str].
  change (is_str (VStr "bifurcated") "percentage") with false.
  rewrite (has_key_Some _ _ _ Hclosed), Hclosed. reflexivity.
Qed.

Lemma vape_open_unfold open price volume_ml quantity :
  d !! "open" = Some (VDec open) ->
  calculate_vape_tax self J "open" price volume_ml quantity =
  let q := Decimal.of_int quantity in
  if_truthy price (fun price => Ok (price *d open *d q))
    (if_truthy volume_ml (fun volume_ml => Ok (volume_ml *d open *d q))
       (Ok zero)).
Proof.
  intros Hopen.
  rewrite (calculate_vape_tax_rule _ _ _ _ _ _ _ _ known has_rule
             (dict_type_nonempty _ _ bifurcated)).
  unfold vape_rule_tax. rewrite (getitem_Some _ _ _ bifurcated).
  cbn [bind is_str].
  rewrite (has_key_Some _ _ _ Hopen), Hopen. reflexivity.
Qed.

End VapeBifurcated.

(** C4, as the source has it. For a jurisdiction whose vape rule is
    bifurcated and a closed-system item: when the configured 'closed'
    value is below 1 the excise is [price * closed_rate * quantity], and
    [Decimal('0')] when the price is missing; when the value is at least
    1 and a volume is given and not zero the excise is
    [volume * closed_rate * quantity]; when the value is at least 1 and
    the volume is missing or zero the excise is [closed_rate * quantity].
    The test of the source is [if volume_ml:], which a volume of zero
    fails just as a missing one does. *)
Theorem vape_bifurcated_closed
    (self : gmap string StateInfo) (J : string) (info : StateInfo)
    (d : gmap string value) (closed : Dec)
    (price volume_ml : option Dec) (quantity : Z) :
  self !! J = Some info ->
  vape_tax info = Some d ->
  d !! "type" = Some (VStr "bifurcated") ->
  d !! "closed" = Some (VDec closed) ->
  let q := Decimal.of_int quantity in
  let excise := calculate_vape_tax self J "closed" price volume_ml quantity in
  ((Decimal.value closed < 1)%Q ->
     (forall p, price = Some p ->
        exists r, excise = Ok r /\ r ==d p *d closed *d q)
     /\ (price = None -> excise = Ok zero))
  /\ ((1 <= Decimal.value closed)%Q ->
      (forall v, volume_ml = Some v -> Decimal.truthy v = true ->
         excise = Ok (v *d closed *d q))
      /\ (volume_ml = None -> excise = Ok (closed *d q))
      /\ (forall v, volume_ml = Some v -> Decimal.truthy v = false ->
            excise = Ok (closed *d q))).
Proof.
  intros HJ Hrule Hty Hclosed q excise. subst excise.
  rewrite (vape_closed_unfold self J info d HJ Hrule Hty closed _ _ _ Hclosed).
  cbv zeta. fold q. split.
  - intros Hlt. apply ltb_one in Hlt. rewrite Hlt. split.
    + intros p ->. destruct (Decimal.truthy p) eqn:Hp.
      * rewrite if_truthy_yes by exact Hp. eexists. split; reflexivity.
      * rewrite if_truthy_no by exact Hp. eexists. split; [reflexivity |].
        apply DecimalFacts.truthy_value in Hp. unfold Decimal.eqv.
        rewrite !DecimalFacts.value_mul, Hp, zero_value. ring.
    + intros ->. reflexivity.
  - intros Hge. apply ltb_one_false in Hge. rewrite Hge. repeat split.
    + intros v -> Hv. rewrite if_truthy_yes by exact Hv. reflexivity.
    + intros ->. reflexivity.
    + intros v -> Hv. rewrite if_truthy_no by exact Hv. reflexivity.
Qed.

Lemma vape_bifurcated_closed_KY :
  exists info d,
    tax_data !! "KY" = Some info /\ vape_tax info = Some d
    /\ d !! "closed" = Some (D "1.50")
    /\ calculate_vape_tax tax_data "KY" "closed" (Some (Decimal.lit "12.00"))
         (Some (Decimal.lit "2")) 3
       = Ok (Decimal.lit "2" *d Decimal.lit "1.50" *d Decimal.of_int 3)
    /\ calculate_vape_tax tax_data "KY" "closed" (Some (Decimal.lit "12.00"))
         None 3
       = Ok (Decimal.lit "1.50" *d Decimal.of_int 3).
Proof.
  assert (H : exists info d,
    tax_data !! "KY" = Some info /\ vape_tax info = Some d
    /\ d !! "type" = Some (VStr "bifurcated")
    /\ d !! "closed" = Some (D "1.50")).
  { eexists _, _. repeat split; vm_compute; reflexivity. }
  destruct H as (info & d & HJ & Hrule & Hty & Hclosed).
  exists info, d. split; [exact HJ |]. split; [exact Hrule |].
  split; [exact Hclosed |]. split.
  - destruct (vape_bifurcated_closed tax_data "KY" info d (Decimal.lit "1.50")
                (Some (Decimal.lit "12.00")) (Some (Decimal.lit "2")) 3
                HJ Hrule Hty Hclosed) as (_ & Hge).
    destruct Hge as (Hvol & _); [vm_compute; discriminate |].
    apply Hvol; reflexivity.
  - destruct (vape_bifurcated_closed tax_data "KY" info d (Decimal.lit "1.50")
                (Some (Decimal.lit "12.00")) None 3
                HJ Hrule Hty Hclosed) as (_ & Hge).
    destruct Hge as (_ & Hnone & _); [vm_compute; discriminate |].
    apply Hnone; reflexivity.
Defined.

(** Connecticut's closed value is 0.40: a percentage of the price. *)
Example vape_closed_CT :
  calculate_vape_tax tax_data "CT" "closed" (Some (Decimal.lit "12.00"))
    (Some (Decimal.lit "2")) 3 = Ok (Decimal.lit "14.4000").
Proof. vm_compute. reflexivity. Qed.

(** A volume that is given need not pass the test [if volume_ml:]. The
    product named 'Vape Pod 0ml' is a closed system whose extracted
    volume is [Decimal('0')]; in Kentucky (closed 1.50, not below 1) three
    of them are charged the flat $4.50, where
    [volume * closed_rate * quantity] is $0.00. *)
Lemma closed_zero_volume_charged_flat :
  _get_product_type vape_pod_0ml = "vape_closed"
  /\ _extract_volume_ml vape_pod_0ml = Some (Decimal.lit "0")
  /\ Decimal.ltb (Decimal.lit "1.50") (Decimal.lit "1") = false
  /\ calculate_vape_tax tax_data "KY" "closed" (Some (price vape_pod_0ml))
       (Some (Decimal.lit "0")) 3 = Ok (Decimal.lit "4.50")
  /\ excise_for tax_data "KY" (_get_product_type vape_pod_0ml)
       (price vape_pod_0ml) 3 (_extract_volume_ml vape_pod_0ml)
     = Ok (Decimal.lit "4.50")
  /\ spec_closed_excise (Decimal.lit "1.50") (Some (price vape_pod_0ml))
       (Some (Decimal.lit "0")) 3 = Decimal.lit "0.00"
  /\ Decimal.eqb (Decimal.lit "4.50") (Decimal.lit "0.00") = false.
Proof.
  repeat split; vm_compute; reflexivity.
Qed.

(** The open path does not look at the size of the sub-rate: with an
    'open' value of 1.50, a price of $10.00 and 2 mL the source returns
    $15.00, not the per-volume $3.00; and in Connecticut (open 0.10) an
    item priced $0.00 with 30 mL is charged per volume, $3.00, not 10% of
    its price. *)
Lemma open_subrate_not_discriminated :
  (calculate_vape_tax sample_table "XX" "open" (Some (Decimal.lit "10.00"))
     (Some (Decimal.lit "2")) 1 = Ok (Decimal.lit "15.0000")
   /\ spec_open_excise (Decimal.lit "1.50") (Decimal.lit "10.00")
        (Decimal.lit "2") 1 = Decimal.lit "3.00"
   /\ Decimal.eqb (Decimal.lit "15.0000") (Decimal.lit "3.00") = false)
  /\ (calculate_vape_tax tax_data "CT" "open" (Some (Decimal.lit "0.00"))
        (Some (Decimal.lit "30")) 1 = Ok (Decimal.lit "3.00")
      /\ spec_open_excise (Decimal.lit "0.10") (Decimal.lit "0.00")
           (Decimal.lit "30") 1 = Decimal.lit "0.0000"
      /\ Decimal.eqb (Decimal.lit "3.00") (Decimal.lit "0.0000") = false).
Proof.
  split; (split; [| split]); vm_compute; reflexivity.
Qed.

(** C5, as the source has it. For a jurisdiction whose vape rule is
    bifurcated and an open-system item, the size of the 'open' sub-rate
    plays no part: when the price is given and not zero the excise is
    [price * open_rate * quantity]; otherwise, when the volume is given
    and not zero, it is [volume * open_rate * quantity]; otherwise it is
    [Decimal('0')]. *)
Theorem vape_bifurcated_open
    (self : gmap string StateInfo) (J : string) (info : StateInfo)
    (d : gmap string value) (open : Dec)
    (price volume_ml : option Dec) (quantity : Z) :
  self !! J = Some info ->
  vape_tax info = Some d ->
  d !! "type" = Some (VStr "bifurcated") ->
  d !! "open" = Some (VDec open) ->
  let q := Decimal.of_int quantity in
  let excise := calculate_vape_tax self J "open" price volume_ml quantity in
  (forall p, price = Some p -> Decimal.truthy p = true ->
     excise = Ok (p *d open *d q))
  /\ (falsy price ->
      forall v, volume_ml = Some v -> Decimal.truthy v = true ->
        excise = Ok (v *d open *d q))
  /\ (falsy price -> falsy volume_ml -> excise = Ok zero).
Proof.
  intros HJ Hrule Hty Hopen q excise. subst excise.
  rewrite (vape_open_unfold self J info d HJ Hrule Hty open _ _ _ Hopen).
  cbv zeta. fold q. repeat split.
  - intros p -> Hp. rewrite if_truthy_yes by exact Hp. reflexivity.
  - intros Hprice v -> Hv. rewrite if_truthy_no by exact Hprice.
    rewrite if_truthy_yes by exact Hv. reflexivity.
  - intros Hprice Hvol. rewrite !if_truthy_no by assumption. reflexivity.
Qed.

Lemma vape_bifurcated_open_CT :
  exists info d,
    tax_data !! "CT" = Some info /\ vape_tax info = Some d
    /\ d !! "open" = Some (D "0.10")
    /\ calculate_vape_tax tax_data "CT" "open" (Some (Decimal.lit "20.00"))
         (Some (Decimal.lit "30")) 2
       = Ok (Decimal.lit "20.00" *d Decimal.lit "0.10" *d Decimal.of_int 2).
Proof.
  assert (H : exists info d,
    tax_data !! "CT" = Some info /\ vape_tax info = Some d
    /\ d !! "type" = Some (VStr "bifurcated")
    /\ d !! "open" = Some (D "0.10")).
  { eexists _, _. repeat split; vm_compute; reflexivity. }
  destruct H as (info & d & HJ & Hrule & Hty & Hopen).
  exists info, d. split; [exact HJ |]. split; [exact Hrule |].
  split; [exact Hopen |].
  destruct (vape_bifurcated_open tax_data "CT" info d (Decimal.lit "0.10")
              (Some (Decimal.lit "20.00")) (Some (Decimal.lit "30")) 2
              HJ Hrule Hty Hopen) as (Hp & _).
  apply Hp; reflexivity.
Defined.

(** ** The state code at the routes *)

Lemma upper_char_idem (c : ascii) :
  Str.upper_char (Str.upper_char c) = Str.upper_char c.
Proof. destruct c as [[] [] [] [] [] [] [] []]; reflexivity. Qed.

Lemma upper_idem (s : string) : Str.upper (Str.upper s) = Str.upper s.
Proof.
  unfold Str.upper. induction s as [| c s IH]; cbn [Str.map]; [reflexivity |].
  rewrite IH, upper_char_idem. reflexivity.
Qed.

(** The route [/tax/state/<state_code>] answers a code in any letter
    case as it answers its upper-case form. *)
Lemma state_route_case_insensitive (self : gmap string StateInfo) (code : string) :
  get_state_tax_info self code = get_state_tax_info self (Str.upper code).
Proof. unfold get_state_tax_info. rewrite upper_idem. reflexivity. Qed.

(** C8. The state code is upper-cased by the route [/tax/state/<code>]
    only. [calculate_product_tax] and [calculate_cart_tax], and the route
    [/tax/calculate] in front of them, look the code up as it is given:
    for three packs of cigarettes at $10.00 the code "de" is answered as
    an unknown state, with no tax and a grand total of $10.00, while its
    upper-case form "DE" is answered with an excise of $6.300 and a grand
    total of $16.300. *)
Theorem lowercase_code_not_normalized :
  let marlboro :=
    {| product_id := 7; name := "Marlboro Cigarettes"; description := None;
       price := Decimal.lit "10.00"; category := None |} in
  let cart := [ {| product := marlboro; cart_quantity := 3 |} ] in
  Str.upper "de" = "DE"
  /\ get_state_tax_info tax_data "de" = get_state_tax_info tax_data "DE"
  /\ (exists lower upper,
        calculate_product_tax tax_data marlboro "de" 3 = Ok lower
        /\ calculate_product_tax tax_data marlboro (Str.upper "de") 3 = Ok upper
        /\ Item.total_tax lower = zero
        /\ Item.total_tax upper = Decimal.lit "6.300")
  /\ (exists lower upper,
        calculate_tax tax_data "de" cart = Ok lower
        /\ calculate_tax tax_data (Str.upper "de") cart = Ok upper
        /\ Summary.total_tax lower = zero
        /\ Summary.grand_total lower = Decimal.lit "10.00"
        /\ Summary.total_tax upper = Decimal.lit "6.300"
        /\ Summary.grand_total upper = Decimal.lit "16.300"
        /\ Decimal.eqb (Summary.grand_total lower) (Summary.grand_total upper)
           = false).
Proof.
  intros marlboro cart. subst marlboro cart.
  split; [reflexivity |].
  split; [apply state_route_case_insensitive |].
  split.
  - exists
      (Item.mk (Taxes.mk zero zero zero) 7 "Marlboro Cigarettes" "cigarettes"
         (Decimal.lit "10.00") 3 "de" (Decimal.lit "10.00")),
      (Item.mk (Taxes.mk (Decimal.lit "6.300") zero (Decimal.lit "6.300")) 7
         "Marlboro Cigarettes" "cigarettes" (Decimal.lit "10.00") 3 "DE"
         (Decimal.lit "16.300")).
    repeat split; vm_compute; reflexivity.
  - exists
      (Summary.mk
         [Item.mk (Taxes.mk zero zero zero) 7 "Marlboro Cigarettes" "cigarettes"
            (Decimal.lit "10.00") 3 "de" (Decimal.lit "10.00")]
         (Decimal.lit "10.00") zero zero zero (Decimal.lit "10.00") "de"),
      (Summary.mk
         [Item.mk (Taxes.mk (Decimal.lit "6.300") zero (Decimal.lit "6.300")) 7
            "Marlboro Cigarettes" "cigarettes" (Decimal.lit "10.00") 3 "DE"
            (Decimal.lit "16.300")]
         (Decimal.lit "10.00") (Decimal.lit "6.300") zero (Decimal.lit "6.300")
         (Decimal.lit "16.300") "DE").
    repeat split; vm_compute; reflexivity.
Qed.

(** ** Product classification *)

Lemma contains_unfold (sub s : string) :
  Str.contains sub s =
  String.prefix sub s ||
  match s with
  | EmptyString => false
  | String _ s' => Str.contains sub s'
  end.
Proof. destruct s; reflexivity. Qed.

Lemma prefix_app_contains (a b s : string) :
  String.prefix (a ++ b) s = true -> Str.contains b s = true.
Proof.
  revert s. induction a as [| c a IH]; intros s H.
  - change (String.prefix b s = true) in H.
    rewrite contains_unfold, H. reflexivity.
  - destruct s as [| c' s]; [discriminate H |].
    change (match ascii_dec c c' with
            | left _ => String.prefix (a ++ b) s
            | right _ => false
            end = true) in H.
    destruct (ascii_dec c c'); [| discriminate H].
    rewrite contains_unfold, (IH _ H). apply orb_true_r.
Qed.

(** A string that contains [a ++ b] contains [b]. *)
Lemma contains_app_r (a b s : string) :
  Str.contains (a ++ b) s = true -> Str.contains b s = true.
Proof.
  induction s as [| c s IH]; intros H; rewrite contains_unfold in H;
    apply orb_prop in H as [H | H].
  - apply (prefix_app_contains a b _ H).
  - discriminate H.
  - apply (prefix_app_contains a b _ H).
  - rewrite contains_unfold, (IH H). apply orb_true_r.
Qed.

Lemma prefix_app_l (a b s : string) :
  String.prefix (a ++ b) s = true -> String.prefix a s = true.
Proof.
  revert s. induction a as [| c a IH]; intros s H.
  - destruct s; reflexivity.
  - destruct s as [| c' s]; [discriminate H |].
    change (match ascii_dec c c' with
            | left _ => String.prefix (a ++ b) s
            | right _ => false
            end = true) in H.
    cbn [String.prefix].
    destruct (ascii_dec c c'); [apply IH, H | discriminate H].
Qed.

(** A string that contains [a ++ b] contains [a]. *)
Lemma contains_app_l (a b s : string) :
  Str.contains (a ++ b) s = true -> Str.contains a s = true.
Proof.
  induction s as [| c s IH]; intros H; rewrite contains_unfold in H;
    apply orb_prop in H as [H | H]; rewrite contains_unfold.
  - rewrite (prefix_app_l a b _ H). reflexivity.
  - discriminate H.
  - rewrite (prefix_app_l a b _ H). reflexivity.
  - rewrite (IH H). apply orb_true_r.
Qed.

Lemma mentions_cigarette_classified (p : Product) :
  mentions "cigarette" p = true -> _get_product_type p = "cigarettes".
Proof. unfold mentions, _get_product_type. intros ->. reflexivity. Qed.

Lemma mentions_app_r (a b : string) (p : Product) :
  mentions (a ++ b) p = true -> mentions b p = true.
Proof.
  unfold mentions. intros H. apply orb_prop in H as [H | H];
    apply contains_app_r in H; rewrite H; [reflexivity | apply orb_true_r].
Qed.

Lemma mentions_app_l (a b : string) (p : Product) :
  mentions (a ++ b) p = true -> mentions a p = true.
Proof.
  unfold mentions. intros H. apply orb_prop in H as [H | H];
    apply contains_app_l in H; rewrite H; [reflexivity | apply orb_true_r].
Qed.

Lemma get_product_type_unfold (p : Product) :
  _get_product_type p =
  if mentions "cigarette" p then "cigarettes"
  else if mentions "cigar" p then "cigars"
  else if existsb (fun term => mentions term p)
            ["vape"; "e-cig"; "electronic"; "vapor"]
  then
    if Str.any_in ["cartridge"; "pod"; "disposable"] (Str.lower (name p))
    then "vape_closed" else "vape_open"
  else "cigars".
Proof. reflexivity. Qed.

(** X1. The classifier answers one of four product types, and it
    answers a vape type exactly when neither the name nor the category
    mentions "cigar" and one of them mentions "vape", "e-cig",
    "electronic" or "vapor"; the closed sub-type is then chosen exactly
    when the name mentions "cartridge", "pod" or "disposable". *)
Theorem product_type_range (p : Product) :
  In (_get_product_type p) product_types
  /\ (str_in_list (_get_product_type p) ["vape_open"; "vape_closed"] = true <->
      mentions "cigar" p = false
      /\ existsb (fun term => mentions term p)
           ["vape"; "e-cig"; "electronic"; "vapor"] = true)
  /\ (_get_product_type p = "vape_closed" <->
      str_in_list (_get_product_type p) ["vape_open"; "vape_closed"] = true
      /\ Str.any_in ["cartridge"; "pod"; "disposable"] (Str.lower (name p)) = true).
Proof.
  rewrite get_product_type_unfold.
  destruct (mentions "cigarette" p) eqn:Hcigarette.
  { pose proof (mentions_app_l "cigar" "ette" p Hcigarette) as Hcigar.
    split; [left; reflexivity |]. split; split.
    - discriminate.
    - intros [H _]. congruence.
    - discriminate.
    - intros [H _]. discriminate H. }
  destruct (mentions "cigar" p) eqn:Hcigar.
  { split; [right; left; reflexivity |]. split; split.
    - discriminate.
    - intros [H _]. discriminate H.
    - discriminate.
    - intros [H _]. discriminate H. }
  destruct (existsb _ _) eqn:Hvape.
  - destruct (Str.any_in _ _) eqn:Hclosed.
    + split; [right; right; right; left; reflexivity |]. split; split; auto.
    + split; [right; right; left; reflexivity |]. split; split; auto.
      * discriminate.
      * intros [_ H]. discriminate H.
  - split; [right; left; reflexivity |]. split; split.
    + discriminate.
    + intros [_ H]. discriminate H.
    + discriminate.
    + intros [H _]. discriminate H.
Qed.

(** X2. A product whose name or category mentions "e-cigarette" is
    classified as cigarettes, because the test for "cigarette" comes
    first; in a state of the table its excise is therefore the cigarette
    rate per pack times the quantity, whatever the state's vape rule. *)
Theorem e_cigarette_taxed_as_cigarettes
    (self : gmap string StateInfo) (p : Product) (state : string)
    (info : StateInfo) (q : Z) :
  mentions "e-cigarette" p = true ->
  self !! state = Some info ->
  _get_product_type p = "cigarettes"
  /\ exists i,
      calculate_product_tax self p state q = Ok i
      /\ Item.product_type i = "cigarettes"
      /\ Item.excise_tax i = cigarette_tax info *d Decimal.of_int q.
Proof.
  intros He Hst.
  assert (Hty : _get_product_type p = "cigarettes").
  { apply mentions_cigarette_classified, (mentions_app_r "e-" "cigarette"), He. }
  split; [exact Hty |].
  unfold calculate_product_tax, calculate_total_tax, excise_for.
  rewrite Hty. change (String.eqb "cigarettes" "cigarettes") with true.
  cbv iota. unfold calculate_cigarette_tax, calculate_sales_tax.
  rewrite Hst. cbn [bind].
  destruct (negb (sales_tax_applies info)); cbn [bind];
    eexists; repeat split; reflexivity.
Qed.

Lemma e_cigarette_taxed_as_cigarettes_CO :
  exists info i,
    tax_data !! "CO" = Some info
    /\ vape_tax info = Some (dict [("type", VStr "percentage"); ("rate", D "0.50")])
    /\ calculate_product_tax tax_data
         {| product_id := 11; name := "Blu E-Cigarette Starter Kit";
            description := None; price := Decimal.lit "24.99";
            category := Some {| category_name := "Vapes" |} |} "CO" 1 = Ok i
    /\ Item.excise_tax i = Decimal.lit "1.940".
Proof.
  assert (H : exists info,
    tax_data !! "CO" = Some info
    /\ vape_tax info = Some (dict [("type", VStr "percentage"); ("rate", D "0.50")])
    /\ cigarette_tax info = Decimal.lit "1.940").
  { eexists. repeat split; vm_compute; reflexivity. }
  destruct H as (info & Hst & Hv & Hc).
  destruct (e_cigarette_taxed_as_cigarettes tax_data
    {| product_id := 11; name := "Blu E-Cigarette Starter Kit";
       description := None; price := Decimal.lit "24.99";
       category := Some {| category_name := "Vapes" |} |} "CO" info 1)
    as (_ & i & Hi & _ & He); [vm_compute; reflexivity | exact Hst |].
  exists info, i. repeat split; try assumption.
  rewrite He, Hc. reflexivity.
Defined.

(** ** Letter case of the product texts *)

Lemma lower_upper_char (c : ascii) :
  Str.lower_char (Str.upper_char c) = Str.lower_char c.
Proof. destruct c as [[] [] [] [] [] [] [] []]; reflexivity. Qed.

Lemma lower_upper (s : string) : Str.lower (Str.upper s) = Str.lower s.
Proof.
  unfold Str.lower, Str.upper.
  induction s as [| c s IH]; cbn [Str.map]; [reflexivity |].
  rewrite IH, lower_upper_char. reflexivity.
Qed.

Lemma map_app (f : ascii -> ascii) (a b : string) :
  Str.map f (a ++ b) = Str.map f a ++ Str.map f b.
Proof.
  induction a as [| c a IH]; [reflexivity |].
  change (String (f c) (Str.map f (a ++ b))
          = String (f c) (Str.map f a ++ Str.map f b)).
  rewrite IH. reflexivity.
Qed.

Lemma lower_app (a b : string) : Str.lower (a ++ b) = Str.lower a ++ Str.lower b.
Proof. apply map_app. Qed.

(** X3. The classifier and the volume extraction read the name, the
    description and the category name in lower case only: writing them
    in upper case changes neither the product type nor the volume. *)
Theorem product_texts_case_insensitive (p : Product) :
  _get_product_type (shouted p) = _get_product_type p
  /\ _extract_volume_ml (shouted p) = _extract_volume_ml p.
Proof.
  split.
  - unfold _get_product_type, shouted. cbn [category name].
    destruct (category p) as [c |]; cbn [option_map category_name];
      rewrite !lower_upper; reflexivity.
  - unfold _extract_volume_ml, shouted. cbn [description name].
    assert (E : Str.lower
                  (Str.upper (name p) ++ " " ++
                   match option_map Str.upper (description p) with
                   | Some d => d
                   | None => ""
                   end)
                = Str.lower
                    (name p ++ " " ++
                     match description p with Some d => d | None => "" end)).
    { rewrite !lower_app, lower_upper.
      destruct (description p) as [d |]; cbn [option_map];
        [rewrite lower_upper |]; reflexivity. }
    rewrite E. reflexivity.
Qed.

(** ** Volume extraction *)

Lemma extract_volume_unfold (p : Product) :
  _extract_volume_ml p =
  let text := volume_text p in
  match pattern_volume "ml" text with
  | Some d => Some d
  | None =>
      match pattern_volume "milliliter" text with
      | Some d => Some d
      | None =>
          match pattern_volume "mL" text with
          | Some d => Some d
          | None =>
              if Str.contains "cartridge" text || Str.contains "pod" text
              then Some (Decimal.lit "1.0")
              else if Str.contains "disposable" text
              then Some (Decimal.lit "2.0")
              else None
          end
      end
  end.
Proof.
  unfold _extract_volume_ml, pattern_volume, volume_text. cbv zeta.
  set (text := Str.lower _).
  destruct (search_volume "ml" text) as [g1 |];
    [destruct (Decimal.of_string g1); [reflexivity |] |];
    (destruct (search_volume "milliliter" text) as [g2 |];
     [destruct (Decimal.of_string g2); [reflexivity |] |]);
    (destruct (search_volume "mL" text) as [g3 |];
     [destruct (Decimal.of_string g3); reflexivity | reflexivity]).
Qed.

Lemma span_rest_all (p q : ascii -> bool) (s : string) :
  all_chars q s = true -> all_chars q (snd (Str.span p s)) = true.
Proof.
  induction s as [| c s IH]; intros H; [reflexivity |].
  cbn [Str.span]. destruct (p c); [| exact H].
  cbn [all_chars] in H. apply andb_prop in H as [_ H].
  destruct (Str.span p s) as [a b]. cbn [snd] in *. apply IH, H.
Qed.

Lemma lower_char_not_L (c : ascii) : not_capital_L (Str.lower_char c) = true.
Proof. destruct c as [[] [] [] [] [] [] [] []]; reflexivity. Qed.

Lemma lower_no_capital_L (s : string) :
  all_chars not_capital_L (Str.lower s) = true.
Proof.
  unfold Str.lower. induction s as [| c s IH]; [reflexivity |].
  cbn [Str.map all_chars]. rewrite lower_char_not_L, IH. reflexivity.
Qed.

Lemma prefix_mL_false (s : string) :
  all_chars not_capital_L s = true -> String.prefix "mL" s = false.
Proof.
  destruct s as [| c1 [| c2 s]]; intros H; try reflexivity.
  - cbn [String.prefix]. destruct (ascii_dec "m" c1); reflexivity.
  - cbn [String.prefix]. destruct (ascii_dec "m" c1); [| reflexivity].
    destruct (ascii_dec "L" c2) as [<- |]; [| reflexivity].
    cbn [all_chars] in H. rewrite andb_true_iff in H. destruct H as [_ H].
    rewrite andb_true_iff in H. destruct H as [H _]. discriminate H.
Qed.

Lemma all_chars_tail (q : ascii -> bool) (c : ascii) (s : string) :
  all_chars q (String c s) = true -> all_chars q s = true.
Proof. cbn [all_chars]. intros H. apply andb_prop in H as [_ H]. exact H. Qed.

Lemma match_volume_at_mL (s : string) :
  all_chars not_capital_L s = true -> match_volume_at "mL" s = None.
Proof.
  intros H. unfold match_volume_at.
  pose proof (span_rest_all Str.is_digit _ s H) as Hrest.
  destruct (Str.span Str.is_digit s) as [int_part rest]. cbn [snd] in Hrest.
  destruct int_part as [| d ds]; [reflexivity |].
  assert (Hend : forall number tail,
    all_chars not_capital_L tail = true ->
    (let '(_, rest0) := Str.span Str.is_space tail in
     if String.prefix "mL" rest0 then Some number else None) = @None string).
  { intros number tail Ht.
    pose proof (span_rest_all Str.is_space _ tail Ht) as Hs.
    destruct (Str.span Str.is_space tail) as [sp rest0]. cbn [snd] in Hs.
    rewrite (prefix_mL_false _ Hs). reflexivity. }
  destruct rest as [| c rest']; [apply Hend; reflexivity |].
  destruct (Ascii.eqb c ".") eqn:Hc.
  - apply Ascii.eqb_eq in Hc. subst c.
    pose proof (span_rest_all Str.is_digit _ rest' (all_chars_tail _ _ _ Hrest))
      as Hfrac.
    destruct (Str.span Str.is_digit rest') as [frac rest'']. cbn [snd] in Hfrac.
    destruct frac; apply Hend; assumption.
  - assert (Hplain :
      (let '(number, rest0) := (String d ds, String c rest') in
       let '(_, rest1) := Str.span Str.is_space rest0 in
       if String.prefix "mL" rest1 then Some number else None) = @None string).
    { apply Hend, Hrest. }
    destruct c as [[] [] [] [] [] [] [] []]; try exact Hplain; discriminate Hc.
Qed.

Lemma search_mL_none (s : string) :
  all_chars not_capital_L s = true -> search_volume "mL" s = None.
Proof.
  induction s as [| c s IH]; intros Hs.
  - cbn [search_volume]. rewrite (match_volume_at_mL _ Hs). reflexivity.
  - cbn [search_volume]. rewrite (match_volume_at_mL _ Hs).
    apply IH, (all_chars_tail _ _ _ Hs).
Qed.

Lemma pattern_mL_none (p : Product) : pattern_volume "mL" (volume_text p) = None.
Proof.
  unfold pattern_volume, volume_text.
  rewrite (search_mL_none _ (lower_no_capital_L _)). reflexivity.
Qed.

(** X4. The third volume pattern, written with a capital L, is searched
    in a text that has been put in lower case, and so never matches:
    only the patterns for "ml" and "milliliter" can supply a volume. *)
Theorem volume_pattern_mL_never_matches (text : string) :
  search_volume "mL" (Str.lower text) = None
  /\ forall p : Product, pattern_volume "mL" (volume_text p) = None.
Proof.
  split; [apply search_mL_none, lower_no_capital_L | apply pattern_mL_none].
Qed.

Lemma digit_of_nonneg (c : ascii) (d : Z) : Decimal.digit_of c = Some d -> 0 <= d.
Proof.
  unfold Decimal.digit_of.
  destruct (48 <=? Z.of_nat (nat_of_ascii c)) eqn:E; cbn [andb]; [| discriminate].
  destruct (Z.of_nat (nat_of_ascii c) <=? 57); [| discriminate].
  intros [= <-]. apply Z.leb_le in E. lia.
Qed.

Lemma digits_nonneg (s : string) (acc : Z) :
  0 <= acc -> 0 <= fst (Decimal.digits s acc).
Proof.
  revert acc. induction s as [| c s IH]; intros acc Hacc; [exact Hacc |].
  cbn [Decimal.digits]. destruct (Decimal.digit_of c) as [d |] eqn:Hd.
  - apply IH. pose proof (digit_of_nonneg _ _ Hd). lia.
  - exact Hacc.
Qed.

Lemma of_string_nonneg (s : string) (d : Dec) :
  Decimal.of_string s = Some d -> 0 <= Decimal.coef d /\ Decimal.exp d <= 0.
Proof.
  unfold Decimal.of_string. destruct s as [| c s]; [discriminate |].
  destruct (Decimal.digit_of c) as [d0 |]; [| discriminate].
  pose proof (digits_nonneg (String c s) 0 ltac:(lia)) as Hn.
  destruct (Decimal.digits (String c s) 0) as [n rest]. cbn [fst] in Hn.
  destruct rest as [| c1 frac].
  { intros [= <-]. cbn. lia. }
  destruct (Ascii.eqb c1 ".") eqn:Hc1.
  - apply Ascii.eqb_eq in Hc1. subst c1.
    destruct frac as [| c' frac']; [discriminate |].
    destruct (Decimal.digit_of c'); [| discriminate].
    pose proof (digits_nonneg (String c' frac') n Hn) as Hm.
    destruct (Decimal.digits (String c' frac') n) as [m rest']. cbn [fst] in Hm.
    destruct rest'; [| discriminate].
    intros [= <-]. cbn [Decimal.coef Decimal.exp]. lia.
  - destruct c1 as [[] [] [] [] [] [] [] []]; discriminate.
Qed.

Lemma extracted_volume_nn (p : Product) (v : Dec) :
  _extract_volume_ml p = Some v -> 0 <= Decimal.coef v /\ Decimal.exp v <= 0.
Proof.
  intros H. rewrite extract_volume_unfold in H. cbv zeta in H.
  assert (Hpat : forall unit d, pattern_volume unit (volume_text p) = Some d ->
                        0 <= Decimal.coef d /\ Decimal.exp d <= 0).
  { intros unit d. unfold pattern_volume.
    destruct (search_volume unit (volume_text p)); [| discriminate].
    apply of_string_nonneg. }
  destruct (pattern_volume "ml" _) eqn:E1.
  { injection H as <-. apply (Hpat _ _ E1). }
  destruct (pattern_volume "milliliter" _) eqn:E2.
  { injection H as <-. apply (Hpat _ _ E2). }
  destruct (pattern_volume "mL" _) eqn:E3.
  { injection H as <-. apply (Hpat _ _ E3). }
  destruct (_ || _).
  { injection H as <-. change (Decimal.lit "1.0") with (Decimal.mk 10 (-1)).
    cbn [Decimal.coef Decimal.exp]. lia. }
  destruct (Str.contains "disposable" _); [| discriminate].
  injection H as <-. change (Decimal.lit "2.0") with (Decimal.mk 20 (-1)).
  cbn [Decimal.coef Decimal.exp]. lia.
Qed.

(** X5. A volume that [_extract_volume_ml] returns is never negative and
    is written without a positive exponent: it is either a number read
    from the text or one of the defaults 1.0 and 2.0. *)
Theorem extracted_volume_nonneg (p : Product) (v : Dec) :
  _extract_volume_ml p = Some v ->
  0 <= Decimal.coef v /\ Decimal.exp v <= 0 /\ (0 <= Decimal.value v)%Q.
Proof.
  intros H. destruct (extracted_volume_nn p v H) as [Hc He].
  repeat split; try assumption.
  unfold Decimal.value. apply Qmult_le_0_compat.
  - change 0%Q with (inject_Z 0). rewrite <- Zle_Qle. exact Hc.
  - apply Qlt_le_weak, DecimalFacts.ten_pow_pos.
Qed.

Lemma extracted_volume_nonneg_30ml :
  _extract_volume_ml
    {| product_id := 2; name := "Vape Juice 30 ML"; description := None;
       price := Decimal.lit "20.00"; category := None |}
    = Some (Decimal.lit "30")
  /\ 0 <= Decimal.coef (Decimal.lit "30").
Proof.
  assert (H : _extract_volume_ml
    {| product_id := 2; name := "Vape Juice 30 ML"; description := None;
       price := Decimal.lit "20.00"; category := None |}
    = Some (Decimal.lit "30")) by (vm_compute; reflexivity).
  split; [exact H |].
  apply (extracted_volume_nonneg _ _ H).
Defined.

(** ** The excise as a function of the quantity *)









(** ** No tax is negative *)

Lemma tax_data_nonneg : table_nonneg tax_data.
Proof. apply (bool_decide_unpack _). vm_compute. reflexivity. Qed.

Lemma nn_value (d : Dec) : nn d <-> (0 <= Decimal.value d)%Q.
Proof.
  unfold nn, Decimal.value. split.
  - intros H. apply Qmult_le_0_compat.
    + change 0%Q with (inject_Z 0). rewrite <- Zle_Qle. exact H.
    + apply Qlt_le_weak, DecimalFacts.ten_pow_pos.
  - intros H.
    destruct (Z.le_gt_cases 0 (Decimal.coef d)) as [Hc | Hc]; [exact Hc |].
    exfalso.
    assert (Hlt : (inject_Z (Decimal.coef d) * (10 # 1) ^ Decimal.exp d
                   < 0 * (10 # 1) ^ Decimal.exp d)%Q).
    { apply Qmult_lt_r; [apply DecimalFacts.ten_pow_pos |].
      change 0%Q with (inject_Z 0). rewrite <- Zlt_Qlt. exact Hc. }
    rewrite Qmult_0_l in Hlt. exact (Qle_not_lt _ _ H Hlt).
Qed.

Lemma nn_zero : nn zero.
Proof. change zero with (Decimal.mk 0 0). unfold nn. cbn [Decimal.coef]. lia. Qed.

Lemma nn_of_int (q : Z) : 0 <= q -> nn (Decimal.of_int q).
Proof. intros H. exact H. Qed.

Lemma nn_mul (a b : Dec) : nn a -> nn b -> nn (a *d b).
Proof. unfold nn, Decimal.mul. cbn [Decimal.coef]. nia. Qed.

Lemma align_nonneg (a : Dec) (e : Z) : nn a -> 0 <= Decimal.align a e.
Proof.
  unfold nn, Decimal.align. intros H.
  apply Z.mul_nonneg_nonneg; [exact H |]. apply Z.pow_nonneg. lia.
Qed.

Lemma nn_add (a b : Dec) : nn a -> nn b -> nn (a +d b).
Proof.
  intros Ha Hb. unfold nn, Decimal.add. cbn [Decimal.coef].
  pose proof (align_nonneg a (Z.min (Decimal.exp a) (Decimal.exp b)) Ha).
  pose proof (align_nonneg b (Z.min (Decimal.exp a) (Decimal.exp b)) Hb).
  lia.
Qed.

Lemma nn_min (a b : Dec) : nn a -> nn b -> nn (Decimal.min a b).
Proof. unfold Decimal.min. destruct (Decimal.ltb b a); auto. Qed.

Lemma dict_nonneg_lookup d k x :
  dict_nonneg d -> d !! k = Some (VDec x) -> nn x.
Proof.
  intros Hd Hk. apply Hd in Hk. unfold nn. cbn in Hk.
  apply Z.leb_le, Hk.
Qed.

Lemma getdec_nonneg d k x : dict_nonneg d -> getdec d k = Ok x -> nn x.
Proof.
  intros Hd. unfold getdec, getitem, bind.
  destruct (d !! k) as [[s | y] |] eqn:E; try discriminate.
  intros [= <-]. apply (dict_nonneg_lookup _ _ _ Hd E).
Qed.

(** Proves that a Decimal built from non-negative parts is not negative. *)
Ltac nn_solve :=
  repeat first
    [ assumption
    | apply nn_zero
    | apply nn_mul
    | apply nn_add
    | apply nn_min
    | match goal with
      | |- nn (Decimal.of_int _) => apply nn_of_int
      | Hd : dict_nonneg ?d, H : getdec ?d _ = Ok ?x |- nn ?x =>
          exact (getdec_nonneg _ _ _ Hd H)
      | Hd : dict_nonneg ?d, H : ?d !! _ = Some (VDec ?x) |- nn ?x =>
          exact (dict_nonneg_lookup _ _ _ Hd H)
      end ].

(** Case analysis on a scrutinee of the goal that has no [match] inside. *)
Ltac inner_case :=
  match goal with
  | |- context [match ?x with _ => _ end] =>
      lazymatch x with
      | context [match _ with _ => _ end] => fail
      | _ => destruct x eqn:?
      end
  end.

(** Closes a leaf [Ok e = Ok r -> nn r] or [Raise _ = Ok r -> ...]. *)
Ltac nn_leaf :=
  intros Hret; first [discriminate Hret | injection Hret as <-; nn_solve].

Section NonNegative.

Variable self : gmap string StateInfo.
Hypothesis self_nonneg : table_nonneg self.

Lemma state_nonneg_inv state info :
  self !! state = Some info ->
  nn (cigarette_tax info) /\ dict_nonneg (cigar_tax info)
  /\ (forall d, vape_tax info = Some d -> dict_nonneg d)
  /\ nn (sales_tax_rate info).
Proof.
  intros Hst. apply self_nonneg in Hst. unfold state_nonneg in Hst.
  rewrite !andb_true_iff in Hst. destruct Hst as [[[Hc Hcigar] Hvape] Hs].
  apply Z.leb_le in Hc. apply Z.leb_le in Hs.
  apply bool_decide_eq_true in Hcigar.
  repeat split; try assumption.
  intros d Hd. rewrite Hd in Hvape. apply bool_decide_eq_true in Hvape.
  exact Hvape.
Qed.

Lemma cigarette_nonneg state q r :
  0 <= q -> calculate_cigarette_tax self state q = Ok r -> nn r.
Proof.
  intros Hq. unfold calculate_cigarette_tax.
  destruct (self !! state) as [info |] eqn:Hst; [| nn_leaf].
  destruct (state_nonneg_inv _ _ Hst) as (Hc & _). nn_leaf.
Qed.

Lemma cigar_nonneg state p q r :
  nn p -> 0 <= q -> calculate_cigar_tax self state p q = Ok r -> nn r.
Proof.
  intros Hp Hq. unfold calculate_cigar_tax.
  destruct (self !! state) as [info |] eqn:Hst; [| nn_leaf].
  destruct (state_nonneg_inv _ _ Hst) as (_ & Hd & _).
  unfold bind. repeat inner_case; nn_leaf.
Qed.

Lemma vape_nonneg state product_type price volume_ml q r :
  opt_nn price -> opt_nn volume_ml -> 0 <= q ->
  calculate_vape_tax self state product_type price volume_ml q = Ok r -> nn r.
Proof.
  intros Hp Hv Hq. unfold calculate_vape_tax.
  destruct (self !! state) as [info |] eqn:Hst; [| nn_leaf].
  destruct (state_nonneg_inv _ _ Hst) as (_ & _ & Hd & _).
  destruct (vape_tax info) as [d |]; [| nn_leaf].
  specialize (Hd d eq_refl).
  destruct (decide (d = ∅)); [nn_leaf |].
  unfold vape_rule_tax, if_truthy, bind.
  destruct price as [price |], volume_ml as [volume_ml |];
    cbn [opt_nn] in Hp, Hv; repeat inner_case; nn_leaf.
Qed.

Lemma sales_nonneg state taxable_amount r :
  nn taxable_amount ->
  calculate_sales_tax self state taxable_amount = Ok r -> nn r.
Proof.
  intros Ha. unfold calculate_sales_tax.
  destruct (self !! state) as [info |] eqn:Hst; [| nn_leaf].
  destruct (state_nonneg_inv _ _ Hst) as (_ & _ & _ & Hs).
  destruct (negb (sales_tax_applies info)); nn_leaf.
Qed.

Lemma excise_nonneg state product_type base_price q volume_ml r :
  nn base_price -> opt_nn volume_ml -> 0 <= q ->
  excise_for self state product_type base_price q volume_ml = Ok r -> nn r.
Proof.
  intros Hp Hv Hq. unfold excise_for.
  destruct (String.eqb product_type "cigarettes");
    [apply cigarette_nonneg, Hq |].
  destruct (str_in_list product_type ["cigars"; "cigar"]);
    [apply cigar_nonneg; assumption |].
  destruct (str_in_list product_type _); [| nn_leaf].
  apply vape_nonneg; assumption.
Qed.

Lemma total_tax_nonneg state product_type base_price q volume_ml t :
  nn base_price -> opt_nn volume_ml -> 0 <= q ->
  calculate_total_tax self state product_type base_price q volume_ml = Ok t ->
  nn (Taxes.excise_tax t) /\ nn (Taxes.sales_tax t) /\ nn (Taxes.total_tax t).
Proof.
  intros Hp Hv Hq Ht. apply total_tax_inv in Ht as (He & Hs & Htot).
  pose proof (excise_nonneg _ _ _ _ _ _ Hp Hv Hq He) as Hex.
  assert (Hsal : nn (Taxes.sales_tax t)).
  { apply (sales_nonneg _ _ _ (nn_add _ _ Hp Hex) Hs). }
  repeat split; try assumption. rewrite Htot. apply nn_add; assumption.
Qed.

End NonNegative.

(** X7. On a table whose rules are well formed and hold no negative
    number (as the table of the source), for every state code, product
    type, price that is not negative, quantity that is not negative and
    volume that is absent or not negative, [calculate_total_tax] returns
    a breakdown whose excise, sales tax and total tax are not negative. *)
Theorem taxes_never_negative
    (self : gmap string StateInfo) (state product_type : string)
    (base_price : Dec) (q : Z) (volume_ml : option Dec) :
  table_ok self -> table_nonneg self ->
  (0 <= Decimal.value base_price)%Q -> 0 <= q ->
  (forall v, volume_ml = Some v -> (0 <= Decimal.value v)%Q) ->
  exists t,
    calculate_total_tax self state product_type base_price q volume_ml = Ok t
    /\ (0 <= Decimal.value (Taxes.excise_tax t))%Q
    /\ (0 <= Decimal.value (Taxes.sales_tax t))%Q
    /\ (0 <= Decimal.value (Taxes.total_tax t))%Q.
Proof.
  intros Hok Hnn Hp Hq Hv.
  destruct (total_tax_returns self Hok state product_type base_price q volume_ml)
    as [t Ht].
  exists t. split; [exact Ht |].
  rewrite <- !nn_value. apply (total_tax_nonneg self Hnn _ _ _ _ _ _) in Ht.
  - exact Ht.
  - apply nn_value, Hp.
  - destruct volume_ml as [v |]; [| exact I]. apply nn_value, Hv. reflexivity.
  - exact Hq.
Qed.

Lemma taxes_never_negative_MN :
  exists t,
    calculate_total_tax tax_data "MN" "cigars" (Decimal.lit "12.00") 4 None = Ok t
    /\ (0 <= Decimal.value (Taxes.excise_tax t))%Q
    /\ (0 <= Decimal.value (Taxes.sales_tax t))%Q
    /\ (0 <= Decimal.value (Taxes.total_tax t))%Q.
Proof.
  apply (taxes_never_negative tax_data "MN" "cigars" (Decimal.lit "12.00") 4 None
           tax_data_ok tax_data_nonneg).
  - vm_compute. discriminate.
  - lia.
  - intros v Hv. discriminate Hv.
Defined.

Lemma Qle_plus_nonneg (a b : Q) : (0 <= b)%Q -> (a <= a + b)%Q.
Proof.
  intros H. apply Qle_minus_iff.
  assert (E : (a + b + - a == b)%Q) by ring. rewrite E. exact H.
Qed.

Lemma Qplus_nonneg (a b : Q) : (0 <= a)%Q -> (0 <= b)%Q -> (0 <= a + b)%Q.
Proof.
  intros Ha Hb. apply (Qle_trans _ a); [exact Ha | apply Qle_plus_nonneg, Hb].
Qed.

Lemma total_of_nonneg (f : Item.t -> Dec) (items : list Item.t) :
  Forall (fun i => nn (f i)) items -> (0 <= total_of f items)%Q.
Proof.
  induction 1 as [| i items Hi _ IH]; cbn [total_of fold_right].
  - apply Qle_refl.
  - apply nn_value in Hi. fold (total_of f items).
    apply Qplus_nonneg; assumption.
Qed.

Lemma item_nonneg self state item i :
  table_nonneg self ->
  nn (price (product item)) -> 0 <= cart_quantity item ->
  item_of self state item i ->
  nn (Item.excise_tax i) /\ nn (Item.sales_tax i) /\ nn (Item.total_tax i).
Proof.
  intros Hnn Hp Hq Hi. apply product_tax_inv in Hi as (Ht & _).
  apply (total_tax_nonneg self Hnn _ _ _ _ _ _ Hp) in Ht; [exact Ht | | exact Hq].
  destruct (_extract_volume_ml (product item)) as [v |] eqn:Hv; [| exact I].
  apply (extracted_volume_nn _ _ Hv).
Qed.

(** X8. On such a table, for a cart whose prices and quantities are not
    negative and for every state code, the summary is returned, its
    three tax totals are not negative, its grand total is at least its
    subtotal, and [price_with_tax] of every item is at least the item's
    base price. *)
Theorem grand_total_at_least_subtotal
    (self : gmap string StateInfo) (cart_items : list CartItem) (state : string) :
  table_ok self -> table_nonneg self -> cart_nonneg cart_items ->
  exists s,
    calculate_cart_tax self cart_items state = Ok s
    /\ (0 <= Decimal.value (Summary.total_excise_tax s))%Q
    /\ (0 <= Decimal.value (Summary.total_sales_tax s))%Q
    /\ (0 <= Decimal.value (Summary.total_tax s))%Q
    /\ (Decimal.value (Summary.subtotal s)
        <= Decimal.value (Summary.grand_total s))%Q
    /\ Forall (fun i => (Decimal.value (Item.base_price i)
                         <= Decimal.value (Item.price_with_tax i))%Q)
         (Summary.items s).
Proof.
  intros Hok Hnn Hcart.
  destruct (cart_tax_returns self Hok cart_items state) as [s Hs].
  exists s. split; [exact Hs |].
  apply cart_tax_inv in Hs as (Hall & _ & Hex & Hsal & Htot & Hgrand & _).
  assert (Hitems : Forall (fun i =>
            (nn (Item.excise_tax i) /\ nn (Item.sales_tax i)
             /\ nn (Item.total_tax i))
            /\ Item.price_with_tax i = Item.base_price i +d Item.total_tax i)
          (Summary.items s)).
  { clear - Hall Hnn Hcart. unfold cart_nonneg in Hcart.
    induction Hall as [| item i rest items Hi _ IH]; [constructor |].
    apply Forall_cons in Hcart as [[Hp Hq] Hrest].
    constructor; [| apply IH, Hrest]. split.
    - apply (item_nonneg self state item i Hnn Hp Hq Hi).
    - apply product_tax_inv in Hi as (_ & -> & _ & _ & Hpw). exact Hpw. }
  assert (H0 : forall f, (forall i, In i (Summary.items s) -> nn (f i)) ->
                         (0 <= total_of f (Summary.items s))%Q).
  { intros f Hf. apply total_of_nonneg, List.Forall_forall, Hf. }
  rewrite List.Forall_forall in Hitems.
  rewrite Hex, Hsal, Hgrand, DecimalFacts.value_add, Htot.
  split; [apply H0; intros i Hi; apply (Hitems i Hi) |].
  split; [apply H0; intros i Hi; apply (Hitems i Hi) |].
  assert (Ht : (0 <= total_of Item.total_tax (Summary.items s))%Q).
  { apply H0. intros i Hi. apply (Hitems i Hi). }
  split; [exact Ht |]. split.
  - apply Qle_plus_nonneg, Ht.
  - apply List.Forall_forall. intros i Hi.
    destruct (Hitems i Hi) as [(_ & _ & Hn) ->].
    rewrite DecimalFacts.value_add. apply nn_value in Hn.
    apply Qle_plus_nonneg, Hn.
Qed.

Lemma grand_total_at_least_subtotal_sample :
  cart_nonneg sample_cart
  /\ exists s,
      calculate_cart_tax tax_data sample_cart "KS" = Ok s
      /\ (Decimal.value (Summary.subtotal s)
          <= Decimal.value (Summary.grand_total s))%Q.
Proof.
  assert (H : cart_nonneg sample_cart).
  { repeat constructor; vm_compute; discriminate. }
  split; [exact H |].
  destruct (grand_total_at_least_subtotal tax_data sample_cart "KS"
              tax_data_ok tax_data_nonneg H) as (s & Hs & _ & _ & _ & Hle & _).
  exists s. split; assumption.
Defined.

(** ** The cart as a list *)

Lemma product_tax_identity self p state q i :
  calculate_product_tax self p state q = Ok i ->
  Item.product_id i = product_id p
  /\ Item.product_name i = name p
  /\ Item.product_type i = _get_product_type p
  /\ Item.quantity i = q
  /\ Item.state i = state.
Proof.
  unfold calculate_product_tax. intros H.
  apply bind_Ok in H as (t & _ & H). injection H as <-. cbn. auto.
Qed.

(** X9. On a well-formed table the summary lists one breakdown per line
    item, in the order of the cart, and each breakdown carries the
    identifier, name and quantity of its line item and the state code
    the cart was computed for, as does the summary itself. *)
Theorem cart_items_in_order
    (self : gmap string StateInfo) (cart_items : list CartItem) (state : string) :
  table_ok self ->
  exists s,
    calculate_cart_tax self cart_items state = Ok s
    /\ length (Summary.items s) = length cart_items
    /\ map Item.product_id (Summary.items s)
       = map (fun item => product_id (product item)) cart_items
    /\ map Item.product_name (Summary.items s)
       = map (fun item => name (product item)) cart_items
    /\ map Item.quantity (Summary.items s) = map cart_quantity cart_items
    /\ Forall (fun i => Item.state i = state) (Summary.items s)
    /\ Summary.state s = state.
Proof.
  intros Hok.
  destruct (cart_tax_returns self Hok cart_items state) as [s Hs].
  exists s. split; [exact Hs |].
  apply cart_tax_inv in Hs as (Hall & _ & _ & _ & _ & _ & Hst).
  induction Hall as [| item i rest items Hi _ IH].
  - repeat split; try reflexivity; [constructor | exact Hst].
  - destruct IH as (Hlen & Hid & Hname & Hq & Hstate & _).
    apply product_tax_identity in Hi as (Ei & En & _ & Eq & Es).
    cbn [length map]. rewrite Hlen, Hid, Hname, Hq, Ei, En, Eq.
    repeat split; try reflexivity; [| exact Hst].
    constructor; assumption.
Qed.

Lemma cart_items_in_order_sample :
  table_ok tax_data
  /\ exists s,
      calculate_cart_tax tax_data sample_cart "KS" = Ok s
      /\ map Item.product_id (Summary.items s) = [7; 2]
      /\ map Item.quantity (Summary.items s) = [3; 2].
Proof.
  split; [exact tax_data_ok |].
  destruct (cart_items_in_order tax_data sample_cart "KS" tax_data_ok)
    as (s & Hs & _ & Hid & _ & Hq & _).
  exists s. repeat split; assumption.
Defined.













(** ** The order that checkout creates *)





(** ** The state the pages compute the tax for *)

Lemma str_in_list_In (x : string) (l : list string) :
  str_in_list x l = true <-> In x l.
Proof.
  unfold str_in_list. rewrite existsb_exists. split.
  - intros (y & Hy & E). apply String.eqb_eq in E. subst y. exact Hy.
  - intros H. exists x. split; [exact H | apply String.eqb_refl].
Qed.

Lemma state_mapping_codes (k code : string) :
  state_mapping !! k = Some code ->
  In code ["DE"; "CA"; "NY"; "TX"; "FL"; "IL"]
  /\ String.length code = 2%nat
  /\ is_Some (tax_data !! code).
Proof.
  assert (H : map_Forall
    (fun _ code =>
       str_in_list code ["DE"; "CA"; "NY"; "TX"; "FL"; "IL"]
       && Nat.eqb (String.length code) 2
       && bool_decide (is_Some (tax_data !! code)) = true) state_mapping).
  { apply (bool_decide_unpack _). vm_compute. reflexivity. }
  intros Hk. apply H in Hk. rewrite !andb_true_iff in Hk.
  destruct Hk as [[Hin Hlen] Hsome].
  apply str_in_list_In in Hin. apply Nat.eqb_eq in Hlen.
  apply bool_decide_eq_true in Hsome. auto.
Qed.

(** X13. The state the cart and checkout pages compute the tax for has
    at most two characters. A stored state longer than two characters is
    replaced by one of the six codes of [state_mapping] or by "DE", hence
    always by a key of the rule table; a stored state of one or two
    characters is used exactly as stored, neither upper-cased nor checked
    against the table; a missing or empty state becomes "DE". *)
Theorem tax_state_of_user_cases (state : option string) :
  (String.length (tax_state_of_user state) <= 2)%nat
  /\ (forall s, state = Some s -> (2 < String.length s)%nat ->
        In (tax_state_of_user state) ["DE"; "CA"; "NY"; "TX"; "FL"; "IL"]
        /\ is_Some (tax_data !! tax_state_of_user state))
  /\ (forall s, state = Some s -> (1 <= String.length s <= 2)%nat ->
        tax_state_of_user state = s)
  /\ (state = None \/ state = Some "" -> tax_state_of_user state = "DE").
Proof.
  assert (HDE : In "DE" ["DE"; "CA"; "NY"; "TX"; "FL"; "IL"]
                /\ String.length "DE" = 2%nat /\ is_Some (tax_data !! "DE")).
  { repeat split; [left; reflexivity | vm_compute; eauto]. }
  assert (Hlong : forall s,
    In (match state_mapping !! Str.lower s with
        | Some code => code | None => "DE" end)
       ["DE"; "CA"; "NY"; "TX"; "FL"; "IL"]
    /\ String.length (match state_mapping !! Str.lower s with
                      | Some code => code | None => "DE" end) = 2%nat
    /\ is_Some (tax_data !! match state_mapping !! Str.lower s with
                            | Some code => code | None => "DE" end)).
  { intros s. destruct (state_mapping !! Str.lower s) as [code |] eqn:E;
      [apply (state_mapping_codes _ _ E) | exact HDE]. }
  unfold tax_state_of_user. repeat split.
  - destruct state as [s |].
    + destruct (String.eqb s "") eqn:Es.
      * cbn. lia.
      * destruct (2 <? String.length s)%nat eqn:El.
        -- destruct (Hlong s) as (_ & -> & _). lia.
        -- apply Nat.ltb_ge in El. exact El.
    + cbn. lia.
  - destruct (String.eqb s "") eqn:Es; subst state; rewrite Es.
    + apply String.eqb_eq in Es. subst s. cbn in H0. lia.
    + apply Nat.ltb_lt in H0. rewrite H0. apply Hlong.
  - subst state. destruct (String.eqb s "") eqn:Es.
    + apply String.eqb_eq in Es. subst s. cbn in H0. lia.
    + apply Nat.ltb_lt in H0. rewrite H0. apply Hlong.
  - intros s -> Hlen. destruct (String.eqb s "") eqn:Es.
    + apply String.eqb_eq in Es. subst s. cbn in Hlen. lia.
    + destruct (2 <? String.length s)%nat eqn:El; [| reflexivity].
      apply Nat.ltb_lt in El. lia.
  - intros [-> | ->]; reflexivity.
Qed.

(** ** The routes of [tax_api.py] *)

Lemma all_states_lookup (self : gmap string StateInfo) (l : list string)
    (acc : gmap string (option (string * StateInfo * bool))) (state : string) :
  foldl (fun all_states_info state =>
           <[state := get_tax_rate_summary self state]> all_states_info)
    acc l !! state
  = if str_in_list state l then Some (get_tax_rate_summary self state)
    else acc !! state.
Proof.
  revert acc. induction l as [| x l IH]; intros acc; cbn [foldl].
  - reflexivity.
  - rewrite IH. unfold str_in_list. cbn [existsb].
    fold (str_in_list state l).
    destruct (str_in_list state l); [rewrite orb_true_r; reflexivity |].
    rewrite orb_false_r. destruct (String.eqb state x) eqn:E.
    + apply String.eqb_eq in E. subst x. apply lookup_insert_eq.
    + apply String.eqb_neq in E. apply lookup_insert_ne. congruence.
Qed.

Lemma states_are_the_table_keys (state : string) :
  In state states <-> is_Some (tax_data !! state).
Proof.
  split.
  - assert (H : Forall (fun state => is_Some (tax_data !! state)) states).
    { apply (bool_decide_unpack _). vm_compute. reflexivity. }
    rewrite List.Forall_forall in H. apply H.
  - assert (H : map_Forall (fun state _ => str_in_list state states = true)
                  tax_data).
    { apply (bool_decide_unpack _). vm_compute. reflexivity. }
    intros [info Hst]. apply str_in_list_In, (H _ _ Hst).
Qed.

(** X14. The list of states the routes [/tax/states] and
    [/tax/admin/compliance] go through names every key of the rule table
    once and nothing else. So the dictionary of [/tax/states] has, for
    each state of the table and for no other key, that state's summary
    and never an error entry, and the compliance page lists the 51
    summaries in the order of the list. *)
Theorem states_routes_cover_the_table :
  NoDup states
  /\ (forall state, In state states <-> is_Some (tax_data !! state))
  /\ (forall state,
        get_all_states_tax_info tax_data !! state
        = match tax_data !! state with
          | Some info =>
              Some (Some (state, info, requires_wholesaler_license state))
          | None => None
          end)
  /\ length (tax_compliance tax_data) = 51%nat
  /\ map (fun summary => fst (fst summary)) (tax_compliance tax_data) = states.
Proof.
  split; [apply (bool_decide_unpack _); vm_compute; reflexivity |].
  split; [apply states_are_the_table_keys |].
  split; [| split; vm_compute; reflexivity].
  intros state. unfold get_all_states_tax_info. rewrite all_states_lookup.
  rewrite lookup_empty. unfold get_tax_rate_summary, get_state_info.
  destruct (tax_data !! state) as [info |] eqn:Hst.
  - assert (Hin : str_in_list state states = true).
    { apply str_in_list_In, states_are_the_table_keys. eauto. }
    rewrite Hin. reflexivity.
  - destruct (str_in_list state states) eqn:Hin; [| reflexivity].
    apply str_in_list_In, states_are_the_table_keys in Hin as [info Hinfo].
    congruence.
Qed.

(** X15. The route [/tax/state/<state_code>] reads the code in any
    letter case: it gives the answer of the upper-case form, it finds a
    state exactly when the upper-case form is a key of the table, and it
    reports the upper-case form with that key's rule record. *)
Theorem state_route_lookup (self : gmap string StateInfo) (state_code : string) :
  get_state_tax_info self state_code
  = get_state_tax_info self (Str.upper state_code)
  /\ (get_state_tax_info self state_code = None <->
      self !! Str.upper state_code = None)
  /\ (forall state info license,
        get_state_tax_info self state_code = Some (state, info, license) ->
        state = Str.upper state_code
        /\ self !! state = Some info
        /\ license = requires_wholesaler_license state).
Proof.
  unfold get_state_tax_info, get_tax_rate_summary, get_state_info.
  rewrite upper_idem. split; [reflexivity |].
  destruct (self !! Str.upper state_code) as [info |] eqn:E.
  - split; [split; discriminate |].
    intros state info' license [= <- <- <-]. auto.
  - split; [split; reflexivity |]. discriminate.
Qed.

(** ** The other vape rules *)

Section VapeRules.

Variable self : gmap string StateInfo.
Variables (J : string) (info : StateInfo) (d : gmap string value).
Hypothesis known : self !! J = Some info.
Hypothesis has_rule : vape_tax info = Some d.




End VapeRules.






(** ** The other cigar rules, and the caps as bounds *)

(** X19. For a state whose cigar rule has the type per_unit the cigar
    excise is [rate * quantity], whatever the price; for the type none,
    and for any type other than percentage and per_unit, it is
    [Decimal('0')] and nothing is raised. *)
Theorem cigar_per_unit_and_untaxed
    (self : gmap string StateInfo) (J : string) (info : StateInfo)
    (ty : string) (wholesale_price : Dec) (quantity : Z) :
  self !! J = Some info ->
  cigar_tax info !! "type" = Some (VStr ty) ->
  (ty = "per_unit" ->
   forall rate, cigar_tax info !! "rate" = Some (VDec rate) ->
     calculate_cigar_tax self J wholesale_price quantity
     = Ok (rate *d Decimal.of_int quantity))
  /\ (str_in_list ty ["percentage"; "per_unit"] = false ->
      calculate_cigar_tax self J wholesale_price quantity = Ok zero).
Proof.
  intros HJ Hty. unfold calculate_cigar_tax. rewrite HJ.
  rewrite (getitem_Some _ _ _ Hty). cbn [bind is_str]. split.
  - intros -> rate Hrate.
    change (String.eqb "per_unit" "none") with false.
    change (String.eqb "per_unit" "percentage") with false.
    change (String.eqb "per_unit" "per_unit") with true. cbv iota.
    rewrite (getdec_Some _ _ _ Hrate). reflexivity.
  - unfold str_in_list. cbn [existsb]. rewrite !orb_false_iff.
    intros (H1 & H2 & _). rewrite H1, H2.
    destruct (String.eqb ty "none"); reflexivity.
Qed.

Lemma cigar_per_unit_and_untaxed_TX_FL :
  calculate_cigar_tax tax_data "TX" (Decimal.lit "9.00") 10
    = Ok (Decimal.lit "0.011" *d Decimal.of_int 10)
  /\ calculate_cigar_tax tax_data "FL" (Decimal.lit "9.00") 10 = Ok zero.
Proof.
  split.
  - assert (H : exists info,
      tax_data !! "TX" = Some info
      /\ cigar_tax info !! "type" = Some (VStr "per_unit")
      /\ cigar_tax info !! "rate" = Some (D "0.011")).
    { eexists. repeat split; vm_compute; reflexivity. }
    destruct H as (info & HJ & Hty & Hrate).
    destruct (cigar_per_unit_and_untaxed tax_data "TX" info "per_unit"
                (Decimal.lit "9.00") 10 HJ Hty) as (Hp & _).
    apply (Hp eq_refl _ Hrate).
  - assert (H : exists info,
      tax_data !! "FL" = Some info
      /\ cigar_tax info !! "type" = Some (VStr "none")).
    { eexists. repeat split; vm_compute; reflexivity. }
    destruct H as (info & HJ & Hty).
    destruct (cigar_per_unit_and_untaxed tax_data "FL" info "none"
                (Decimal.lit "9.00") 10 HJ Hty) as (_ & Hn).
    apply Hn. reflexivity.
Defined.




(** ** Volume and product type together *)

Lemma prefix_app_r (k a b : string) :
  String.prefix k a = true -> String.prefix k (a ++ b) = true.
Proof.
  revert k. induction a as [| c a IH]; intros k H.
  - destruct k; [| discriminate H]. destruct b; reflexivity.
  - destruct k as [| c' k]; [reflexivity |].
    cbn [String.prefix] in H.
    change (match ascii_dec c' c with
            | left _ => String.prefix k (a ++ b)
            | right _ => false
            end = true).
    destruct (ascii_dec c' c); [apply IH, H | discriminate H].
Qed.

(** What a string contains, it still contains with more text after it. *)
Lemma contains_app (k a b : string) :
  Str.contains k a = true -> Str.contains k (a ++ b) = true.
Proof.
  induction a as [| c a IH]; intros H; rewrite contains_unfold in H;
    apply orb_prop in H as [H | H].
  - pose proof (prefix_app_r _ _ b H) as P.
    rewrite contains_unfold, P. reflexivity.
  - discriminate H.
  - pose proof (prefix_app_r _ _ b H) as P.
    change (String c a ++ b) with (String c (a ++ b)) in *.
    rewrite contains_unfold, P. reflexivity.
  - change (String c a ++ b) with (String c (a ++ b)).
    rewrite contains_unfold, (IH H). apply orb_true_r.
Qed.

Lemma volume_text_contains (k : string) (p : Product) :
  Str.contains k (Str.lower (name p)) = true ->
  Str.contains k (volume_text p) = true.
Proof.
  intros H. unfold volume_text. rewrite lower_app. apply contains_app, H.
Qed.

Lemma closed_mentions_keyword (p : Product) :
  _get_product_type p = "vape_closed" ->
  Str.any_in ["cartridge"; "pod"; "disposable"] (Str.lower (name p)) = true.
Proof.
  rewrite get_product_type_unfold.
  destruct (mentions "cigarette" p); [discriminate |].
  destruct (mentions "cigar" p); [discriminate |].
  destruct (existsb _ _); [| discriminate].
  destruct (Str.any_in _ _); [reflexivity | discriminate].
Qed.

(** The name of a closed system holds a keyword of the defaults, and so
    does the text the volume is read from. *)
Lemma closed_text_keyword (p : Product) :
  _get_product_type p = "vape_closed" ->
  Str.contains "cartridge" (volume_text p)
  || Str.contains "pod" (volume_text p) = false ->
  Str.contains "disposable" (volume_text p) = true.
Proof.
  intros Hty Hnot. apply closed_mentions_keyword in Hty.
  unfold Str.any_in in Hty. cbn [existsb] in Hty.
  apply orb_false_iff in Hnot as [Hc Hp].
  rewrite !orb_true_iff in Hty. destruct Hty as [H | [H | [H | H]]].
  - apply (volume_text_contains _ p) in H. congruence.
  - apply (volume_text_contains _ p) in H. congruence.
  - apply (volume_text_contains _ p), H.
  - discriminate H.
Qed.

Lemma closed_volume_some (p : Product) :
  _get_product_type p = "vape_closed" -> exists v, _extract_volume_ml p = Some v.
Proof.
  intros Hty. pose proof (closed_text_keyword p Hty) as Hkey.
  rewrite extract_volume_unfold. cbv zeta.
  destruct (pattern_volume "ml" _); [eauto |].
  destruct (pattern_volume "milliliter" _); [eauto |].
  destruct (pattern_volume "mL" _); [eauto |].
  destruct (Str.contains "cartridge" (volume_text p)
            || Str.contains "pod" (volume_text p)) eqn:E; [eauto |].
  rewrite (Hkey eq_refl). eauto.
Qed.

(** X21. A product classified as a closed vape system always gets a
    volume: its name holds "cartridge", "pod" or "disposable", so when
    no number followed by "ml" or "milliliter" is found in its text the
    default applies, 1.0 mL for "cartridge" or "pod" and 2.0 mL
    otherwise. *)
Theorem closed_vape_has_volume (p : Product) :
  _get_product_type p = "vape_closed" ->
  exists v,
    _extract_volume_ml p = Some v
    /\ 0 <= Decimal.coef v
    /\ (pattern_volume "ml" (volume_text p) = None ->
        pattern_volume "milliliter" (volume_text p) = None ->
        v = if Str.contains "cartridge" (volume_text p)
               || Str.contains "pod" (volume_text p)
            then Decimal.lit "1.0" else Decimal.lit "2.0").
Proof.
  intros Hty. pose proof (closed_text_keyword p Hty) as Hkey.
  destruct (closed_volume_some p Hty) as [v Hv]. exists v. split; [exact Hv |].
  split; [apply (extracted_volume_nn p v Hv) |].
  intros H1 H2. rewrite extract_volume_unfold in Hv. cbv zeta in Hv.
  rewrite H1, H2, pattern_mL_none in Hv.
  destruct (Str.contains "cartridge" (volume_text p)
            || Str.contains "pod" (volume_text p)) eqn:E; [congruence |].
  rewrite (Hkey eq_refl) in Hv. congruence.
Qed.

Lemma closed_vape_has_volume_pod :
  exists v,
    _extract_volume_ml
      {| product_id := 5; name := "Vapor Pod Refill"; description := None;
         price := Decimal.lit "14.00"; category := None |} = Some v
    /\ 0 <= Decimal.coef v.
Proof.
  destruct (closed_vape_has_volume
    {| product_id := 5; name := "Vapor Pod Refill"; description := None;
       price := Decimal.lit "14.00"; category := None |})
    as (v & Hv & Hc & _); [vm_compute; reflexivity |].
  exists v. split; assumption.
Defined.

(** X22. In a state whose vape rule has the type per_ml, a vape product
    for which no volume can be extracted (necessarily an open system)
    is charged no excise: [calculate_product_tax] returns with an excise
    of [Decimal('0')], and the sales tax is then the sales tax on the
    price alone. *)
Theorem per_ml_without_volume_untaxed
    (self : gmap string StateInfo) (state : string) (info : StateInfo)
    (d : gmap string value) (p : Product) (q : Z) :
  self !! state = Some info ->
  vape_tax info = Some d ->
  d !! "type" = Some (VStr "per_ml") ->
  str_in_list (_get_product_type p) ["vape_open"; "vape_closed"] = true ->
  _extract_volume_ml p = None ->
  _get_product_type p = "vape_open"
  /\ exists i,
      calculate_product_tax self p state q = Ok i
      /\ Item.excise_tax i = zero
      /\ calculate_sales_tax self state (price p +d zero) = Ok (Item.sales_tax i).
Proof.
  intros Hst Hrule Hty Hvape Hvol.
  assert (Hopen : _get_product_type p = "vape_open").
  { unfold str_in_list in Hvape. cbn [existsb] in Hvape.
    rewrite orb_false_r in Hvape. apply orb_prop in Hvape as [H | H];
      apply String.eqb_eq in H; [exact H |].
    destruct (closed_volume_some p H) as (v & Hv). congruence. }
  split; [exact Hopen |].
  assert (He : excise_for self state "vape_open" (price p) q None = Ok zero).
  { unfold excise_for.
    change (String.eqb "vape_open" "cigarettes") with false.
    change (str_in_list "vape_open" ["cigars"; "cigar"]) with false.
    change (str_in_list "vape_open"
              ["vape"; "e-cigarette"; "vape_open"; "vape_closed"]) with true.
    cbv iota.
    rewrite (calculate_vape_tax_rule _ _ _ _ _ _ _ _ Hst Hrule
               (dict_type_nonempty _ _ Hty)).
    unfold vape_rule_tax. rewrite (getitem_Some _ _ _ Hty).
    cbn [bind is_str]. change (String.eqb "per_ml" "percentage") with false.
    change (String.eqb "per_ml" "per_ml") with true. reflexivity. }
  unfold calculate_product_tax, calculate_total_tax.
  rewrite Hopen, Hvol, He. cbn [bind].
  assert (Hs : exists r, calculate_sales_tax self state (price p +d zero) = Ok r).
  { unfold calculate_sales_tax. rewrite Hst.
    destruct (negb (sales_tax_applies info)); eauto. }
  destruct Hs as [r Hr]. rewrite Hr. cbn [bind].
  eexists. repeat split; reflexivity.
Qed.

Lemma per_ml_without_volume_untaxed_KS :
  exists i,
    calculate_product_tax tax_data
      {| product_id := 9; name := "E-Liquid 10-pack"; description := None;
         price := Decimal.lit "25.00";
         category := Some {| category_name := "Vape" |} |} "KS" 1 = Ok i
    /\ Item.excise_tax i = zero.
Proof.
  assert (H : exists info d,
    tax_data !! "KS" = Some info /\ vape_tax info = Some d
    /\ d !! "type" = Some (VStr "per_ml")).
  { eexists _, _. repeat split; vm_compute; reflexivity. }
  destruct H as (info & d & Hst & Hrule & Hty).
  destruct (per_ml_without_volume_untaxed tax_data "KS" info d
    {| product_id := 9; name := "E-Liquid 10-pack"; description := None;
       price := Decimal.lit "25.00";
       category := Some {| category_name := "Vape" |} |} 1 Hst Hrule Hty)
    as (_ & i & Hi & He & _); [vm_compute; reflexivity | vm_compute; reflexivity |].
  exists i. split; assumption.
Defined.

(** ** Sales tax and quantity *)



(** ** A volume written in the name *)

Lemma app_assoc_string (a b c : string) : (a ++ b) ++ c = a ++ (b ++ c).
Proof.
  induction a as [| x a IH]; [reflexivity |].
  change (String x ((a ++ b) ++ c) = String x (a ++ (b ++ c))).
  rewrite IH. reflexivity.
Qed.

Lemma lower_char_digit (c : ascii) :
  Str.is_digit (Str.lower_char c) = Str.is_digit c.
Proof. destruct c as [[] [] [] [] [] [] [] []]; reflexivity. Qed.

Lemma lower_char_fix_digit (c : ascii) :
  Str.is_digit c = true -> Str.lower_char c = c.
Proof. destruct c as [[] [] [] [] [] [] [] []]; intros H; try reflexivity; discriminate H. Qed.

Lemma lower_char_fix_space (c : ascii) :
  Str.is_space c = true -> Str.lower_char c = c.
Proof. destruct c as [[] [] [] [] [] [] [] []]; intros H; try reflexivity; discriminate H. Qed.

Lemma lower_fixed (q : ascii -> bool) (s : string) :
  (forall c, q c = true -> Str.lower_char c = c) ->
  all_chars q s = true -> Str.lower s = s.
Proof.
  intros Hq. unfold Str.lower. induction s as [| c s IH]; intros H; [reflexivity |].
  cbn [all_chars] in H. apply andb_prop in H as [Hc Hs].
  cbn [Str.map]. rewrite (Hq c Hc), (IH Hs). reflexivity.
Qed.

Lemma lower_not_digit (s : string) :
  all_chars not_digit s = true -> all_chars not_digit (Str.lower s) = true.
Proof.
  unfold Str.lower. induction s as [| c s IH]; intros H; [reflexivity |].
  cbn [all_chars] in H. apply andb_prop in H as [Hc Hs].
  cbn [Str.map all_chars]. unfold not_digit in *.
  rewrite lower_char_digit, Hc, (IH Hs). reflexivity.
Qed.

Lemma span_app (q : ascii -> bool) (a b : string) :
  all_chars q a = true -> head_fails q b -> Str.span q (a ++ b) = (a, b).
Proof.
  induction a as [| c a IH]; intros Ha Hb.
  - change ("" ++ b) with b. destruct b as [| c b]; [reflexivity |].
    cbn [Str.span]. cbn [head_fails] in Hb. rewrite Hb. reflexivity.
  - cbn [all_chars] in Ha. apply andb_prop in Ha as [Hc Ha].
    change (String c a ++ b) with (String c (a ++ b)).
    cbn [Str.span]. rewrite Hc, (IH Ha Hb). reflexivity.
Qed.

Lemma match_volume_at_number (ds sp rest : string) :
  ds <> "" -> all_chars Str.is_digit ds = true ->
  all_chars Str.is_space sp = true ->
  match_volume_at "ml" (ds ++ sp ++ "ml" ++ rest) = Some ds.
Proof.
  intros Hne Hds Hsp. unfold match_volume_at.
  assert (Hhead : head_fails Str.is_digit (sp ++ "ml" ++ rest)).
  { destruct sp as [| c sp]; [reflexivity |].
    cbn [all_chars] in Hsp. apply andb_prop in Hsp as [Hc _].
    change (Str.is_digit c = false).
    destruct c as [[] [] [] [] [] [] [] []]; try reflexivity; discriminate Hc. }
  rewrite (span_app _ _ _ Hds Hhead).
  destruct ds as [| d ds']; [contradiction |].
  assert (Hspan : Str.span Str.is_space (sp ++ "ml" ++ rest) = (sp, "ml" ++ rest)).
  { apply span_app; [exact Hsp | reflexivity]. }
  assert (Hml : String.prefix "ml" ("ml" ++ rest) = true).
  { change ("ml" ++ rest) with (String "m" (String "l" rest)).
    cbn [String.prefix].
    destruct (ascii_dec "m" "m") as [_ | N]; [| contradiction].
    destruct (ascii_dec "l" "l") as [_ | N]; [| contradiction].
    destruct rest; reflexivity. }
  destruct sp as [| c sp'].
  - change ("" ++ "ml" ++ rest) with (String "m" (String "l" rest)) in *.
    cbv iota beta. rewrite Hspan, Hml. reflexivity.
  - change (String c sp' ++ "ml" ++ rest)
      with (String c (sp' ++ "ml" ++ rest)) in *.
    cbn [all_chars] in Hsp. apply andb_prop in Hsp as [Hc _].
    assert (Hdot : Ascii.eqb c "." = false).
    { destruct c as [[] [] [] [] [] [] [] []]; try reflexivity; discriminate Hc. }
    assert (Hplain :
      (let '(number, rest0) :=
         (String d ds', String c (sp' ++ "ml" ++ rest)) in
       let '(_, rest1) := Str.span Str.is_space rest0 in
       if String.prefix "ml" rest1 then Some number else None)
      = Some (String d ds')).
    { cbv iota beta. rewrite Hspan, Hml. reflexivity. }
    destruct c as [[] [] [] [] [] [] [] []]; try exact Hplain; discriminate Hdot.
Qed.

Lemma match_volume_at_not_digit (unit : string) (c : ascii) (s : string) :
  not_digit c = true -> match_volume_at unit (String c s) = None.
Proof.
  intros Hc. unfold match_volume_at. cbn [Str.span].
  unfold not_digit in Hc. apply negb_true_iff in Hc. rewrite Hc. reflexivity.
Qed.

Lemma search_volume_head (unit s g : string) :
  match_volume_at unit s = Some g -> search_volume unit s = Some g.
Proof. intros H. destruct s; cbn [search_volume]; rewrite H; reflexivity. Qed.

Lemma search_volume_first_number (pre ds sp rest : string) :
  all_chars not_digit pre = true ->
  ds <> "" -> all_chars Str.is_digit ds = true ->
  all_chars Str.is_space sp = true ->
  search_volume "ml" (pre ++ ds ++ sp ++ "ml" ++ rest) = Some ds.
Proof.
  intros Hpre Hne Hds Hsp. induction pre as [| c pre IH].
  - change ("" ++ ds ++ sp ++ "ml" ++ rest) with (ds ++ sp ++ "ml" ++ rest).
    apply search_volume_head, (match_volume_at_number ds sp rest Hne Hds Hsp).
  - cbn [all_chars] in Hpre. apply andb_prop in Hpre as [Hc Hpre].
    change (String c pre ++ ds ++ sp ++ "ml" ++ rest)
      with (String c (pre ++ ds ++ sp ++ "ml" ++ rest)).
    cbn [search_volume]. rewrite (match_volume_at_not_digit _ _ _ Hc).
    apply IH, Hpre.
Qed.

Lemma digits_all (ds : string) (acc : Z) :
  all_chars Str.is_digit ds = true ->
  snd (Decimal.digits ds acc) = "".
Proof.
  revert acc. induction ds as [| c ds IH]; intros acc H; [reflexivity |].
  cbn [all_chars] in H. apply andb_prop in H as [Hc Hds].
  cbn [Decimal.digits].
  assert (Hd : exists d, Decimal.digit_of c = Some d).
  { unfold Decimal.digit_of. unfold Str.is_digit, Str.code in Hc. rewrite Hc. eauto. }
  destruct Hd as [d ->]. apply IH, Hds.
Qed.

Lemma of_string_digits (ds : string) :
  ds <> "" -> all_chars Str.is_digit ds = true ->
  exists n, 0 <= n /\ Decimal.of_string ds = Some (Decimal.mk n 0).
Proof.
  intros Hne Hds. destruct ds as [| c ds']; [contradiction |].
  pose proof (digits_all (String c ds') 0 Hds) as Hrest.
  pose proof (digits_nonneg (String c ds') 0 ltac:(lia)) as Hn.
  unfold Decimal.of_string.
  assert (Hd : exists d, Decimal.digit_of c = Some d).
  { cbn [all_chars] in Hds. apply andb_prop in Hds as [Hc _].
    unfold Decimal.digit_of. unfold Str.is_digit, Str.code in Hc. rewrite Hc. eauto. }
  destruct Hd as [d ->].
  destruct (Decimal.digits (String c ds') 0) as [n r]. cbn [fst snd] in *.
  subst r. exists n. split; [exact Hn | reflexivity].
Qed.

(** X24. When the first digits of a product name are a whole number
    followed, after optional blanks, by "ml" in any letter case, the
    extracted volume is that number: no keyword default and no later
    number is considered. *)
Theorem first_number_ml_is_the_volume
    (p : Product) (pre ds sp unit rest : string) :
  name p = pre ++ ds ++ sp ++ unit ++ rest ->
  all_chars not_digit pre = true ->
  ds <> "" -> all_chars Str.is_digit ds = true ->
  all_chars Str.is_space sp = true ->
  Str.lower unit = "ml" ->
  _extract_volume_ml p = Decimal.of_string ds
  /\ exists n, 0 <= n /\ _extract_volume_ml p = Some (Decimal.mk n 0).
Proof.
  intros Hname Hpre Hne Hds Hsp Hunit.
  destruct (of_string_digits ds Hne Hds) as (n & Hn & Hparse).
  assert (Htext : exists tail,
    volume_text p = Str.lower pre ++ ds ++ sp ++ "ml" ++ tail).
  { unfold volume_text. rewrite Hname.
    exists (Str.lower (rest ++ " " ++
                        match description p with Some d => d | None => "" end)).
    rewrite !app_assoc_string, !lower_app, Hunit.
    rewrite (lower_fixed Str.is_digit ds lower_char_fix_digit Hds).
    rewrite (lower_fixed Str.is_space sp lower_char_fix_space Hsp).
    reflexivity. }
  destruct Htext as [tail Htext].
  assert (Hv : _extract_volume_ml p = Decimal.of_string ds).
  { rewrite extract_volume_unfold. cbv zeta. unfold pattern_volume at 1.
    rewrite Htext.
    rewrite (search_volume_first_number _ ds sp tail (lower_not_digit _ Hpre)
               Hne Hds Hsp).
    rewrite Hparse. reflexivity. }
  split; [exact Hv |]. exists n. split; [exact Hn |]. rewrite Hv. exact Hparse.
Qed.

Lemma first_number_ml_is_the_volume_sample :
  _extract_volume_ml
    {| product_id := 4; name := "Nic Salt Pod 25 ML x3 60ml";
       description := None; price := Decimal.lit "20.00"; category := None |}
  = Some (Decimal.mk 25 0).
Proof.
  destruct (first_number_ml_is_the_volume
    {| product_id := 4; name := "Nic Salt Pod 25 ML x3 60ml";
       description := None; price := Decimal.lit "20.00"; category := None |}
    "Nic Salt Pod " "25" " " "ML" " x3 60ml") as (Hv & _);
    [ reflexivity | reflexivity | discriminate | reflexivity | reflexivity
    | reflexivity | rewrite Hv; reflexivity ].
Defined.
